(** * Sgiach front-end: a shallow embedding of the page scripts

    The repository holds three scripts:
    - the building-placement page (the inline script of the development
      suite page): grid snapping, the buildable-area check, the list of placed
      buildings and the development-plan export;
    - the landing page [sgiach-app.html]: connectivity check, analysis request
      with its test-data fallback, result cards and the CSV export;
    - [static/js/sgiach-mapping.js]: the [SgiachMapping] class and the
      professional validation request.

    Handlers are functions from a page state (and the data the browser hands
    them) to a new state and the list of effects they perform, in program
    order.  JavaScript exceptions are explicit outcomes. *)

From Stdlib Require Import ZArith QArith Qround Qabs Lqa Lia.
From Stdlib Require Import Bool List String Ascii DecimalString Sorted.
Import ListNotations.

Local Open Scope Q_scope.

(* ===================================================================== *)
(** ** JavaScript values used by the scripts *)
(* ===================================================================== *)

Module JS.

(** A JavaScript number.  Finite values are kept as exact rationals; [NaN]
    is what [parseInt] gives on text without digits.  Infinities do not
    arise: the scripts only divide by non-zero constants. *)
Inductive number : Type :=
| NaN
| Num (q : Q).

Definition lift2 (f : Q -> Q -> Q) (a b : number) : number :=
  match a, b with
  | Num p, Num q => Num (f p q)
  | _, _ => NaN
  end.

Definition add : number -> number -> number := lift2 Qplus.
Definition sub : number -> number -> number := lift2 Qminus.
Definition mul : number -> number -> number := lift2 Qmult.
Definition div : number -> number -> number := lift2 Qdiv.

(** [a <= b] and [a >= b]: any comparison with [NaN] is false. *)
Definition lte (a b : number) : bool :=
  match a, b with
  | Num p, Num q => Qle_bool p q
  | _, _ => false
  end.

Definition gte (a b : number) : bool := lte b a.

(** [Math.round]: the nearest integer, halves going up. *)
Definition Math_round (a : number) : number :=
  match a with
  | Num q => Num (inject_Z (Qfloor (q + (1 # 2))))
  | NaN => NaN
  end.

Definition of_Z (z : Z) : number := Num (inject_Z z).

(** [s.split(sep)] for a one-character separator. *)
Fixpoint split (sep : ascii) (s : string) : list string :=
  match s with
  | EmptyString => [EmptyString]
  | String c rest =>
      if Ascii.eqb c sep then EmptyString :: split sep rest
      else match split sep rest with
           | p :: ps => String c p :: ps
           | [] => [String c EmptyString]
           end
  end.

(** White space skipped by [parseInt] (code units below 256). *)
Definition is_white_space (c : ascii) : bool :=
  let n := nat_of_ascii c in
  ((9 <=? n) && (n <=? 13) || (n =? 32) || (n =? 160))%nat.

Fixpoint trim_start (s : string) : string :=
  match s with
  | String c rest => if is_white_space c then trim_start rest else s
  | EmptyString => EmptyString
  end.

Definition digit_value (c : ascii) : option Z :=
  let n := nat_of_ascii c in
  if ((48 <=? n) && (n <=? 57))%nat then Some (Z.of_nat n - 48)%Z
  else if ((97 <=? n) && (n <=? 122))%nat then Some (Z.of_nat n - 87)%Z
  else if ((65 <=? n) && (n <=? 90))%nat then Some (Z.of_nat n - 55)%Z
  else None.

(** The value of the longest prefix of digits in [radix]; [acc] is [None]
    until a digit has been read. *)
Fixpoint read_digits (radix : Z) (s : string) (acc : option Z) : option Z :=
  match s with
  | String c rest =>
      match digit_value c with
      | Some d =>
          if (d <? radix)%Z
          then read_digits radix rest
                 (Some (match acc with
                        | Some a => a * radix + d
                        | None => d
                        end)%Z)
          else acc
      | None => acc
      end
  | EmptyString => acc
  end.

Definition strip_sign (s : string) : Z * string :=
  match s with
  | String "-" rest => ((-1)%Z, rest)
  | String "+" rest => (1%Z, rest)
  | _ => (1%Z, s)
  end.

Definition strip_hex_prefix (s : string) : Z * string :=
  match s with
  | String "0" (String "x" rest) => (16%Z, rest)
  | String "0" (String "X" rest) => (16%Z, rest)
  | _ => (10%Z, s)
  end.

(** [parseInt(s)] with no radix argument. *)
Definition parseInt_string (s : string) : number :=
  let (sign, s1) := strip_sign (trim_start s) in
  let (radix, s2) := strip_hex_prefix s1 in
  match read_digits radix s2 None with
  | Some n => of_Z (sign * n)
  | None => NaN
  end.

(** [parseInt(v)] where [v] is an array slot: a missing slot is
    [undefined], whose text has no digits. *)
Definition parseInt (v : option string) : number :=
  match v with
  | Some s => parseInt_string s
  | None => NaN
  end.

(** ASCII part of [toUpperCase] on one character. *)
Definition upper_char (c : ascii) : ascii :=
  let n := nat_of_ascii c in
  if ((97 <=? n) && (n <=? 122))%nat then ascii_of_nat (n - 32) else c.

(** The text of an array length or index, as a template literal prints
    it. *)
Definition nat_toString (n : nat) : string :=
  NilEmpty.string_of_uint (Nat.to_uint n).

(** The line feed written [\n] in the scripts. *)
Definition LF : string := String (ascii_of_nat 10) EmptyString.

(** [arr.findIndex(p)]: [None] stands for [-1]. *)
Fixpoint findIndex {A : Type} (p : A -> bool) (l : list A) : option nat :=
  match l with
  | [] => None
  | a :: rest =>
      if p a then Some O
      else match findIndex p rest with
           | Some i => Some (S i)
           | None => None
           end
  end.

(** [arr.splice(index, 1)]: the array without the element at [index]. *)
Definition splice1 {A : Type} (index : nat) (l : list A) : list A :=
  firstn index l ++ skipn (S index) l.

(** A parsed JSON value.  The fields of an object are listed in the order
    of the text. *)
#[local] Unset Elimination Schemes.
Inductive Json : Type :=
| JNull
| JBool (b : bool)
| JNumber (q : Q)
| JString (s : string)
| JArray (items : list Json)
| JObject (fields : list (string * Json)).
#[local] Set Elimination Schemes.

(** The double quote character. *)
Definition quote : string := String (ascii_of_nat 34) EmptyString.

(** [s.toUpperCase()], ASCII letters only. *)
Fixpoint toUpperCase (s : string) : string :=
  match s with
  | String c rest => String (upper_char c) (toUpperCase rest)
  | EmptyString => EmptyString
  end.

(** *** Printing numbers

    How a number becomes text belongs to the browser, so the pages below
    take it as a [Runtime].  [decimal_runtime] prints exact decimals and
    en-US digit grouping; it is what the worked examples run on. *)

Class Runtime : Type := {
  Number_toString : Q -> string;          (* `${n}` *)
  Number_toFixed : Q -> nat -> string;    (* n.toFixed(digits) *)
  Number_toLocaleString : Q -> string;    (* n.toLocaleString() *)
  Date_toISOString : string               (* new Date().toISOString() *)
}.

Definition Z_toString (z : Z) : string := NilZero.string_of_int (Z.to_int z).

Fixpoint zeros (n : nat) : string :=
  match n with
  | O => EmptyString
  | S n' => String "0" (zeros n')
  end.

Definition pad_left (width : nat) (s : string) : string :=
  (zeros (width - String.length s) ++ s)%string.

(** [int . frac] where [m] counts units of [10^-places]. *)
Definition fixed_text (m : Z) (places : nat) : string :=
  let unit := (10 ^ Z.of_nat places)%Z in
  (Z_toString (m / unit) ++
   match places with
   | O => EmptyString
   | _ => "." ++ pad_left places (Z_toString (m mod unit))
   end)%string.

Definition sign_text (q : Q) : string :=
  if (Qnum q <? 0)%Z then "-"%string else EmptyString.

(** The least number of decimal places, up to [fuel] more, that hold
    [n / d] exactly. *)
Fixpoint decimal_places (fuel : nat) (n d : Z) (places : nat) : nat :=
  match fuel with
  | O => places
  | S fuel' =>
      if ((n * 10 ^ Z.of_nat places) mod d =? 0)%Z then places
      else decimal_places fuel' n d (S places)
  end.

Definition decimal_toString (q : Q) : string :=
  let n := Z.abs (Qnum q) in
  let d := Zpos (Qden q) in
  let places := decimal_places 20 n d 0 in
  (sign_text q ++ fixed_text (n * 10 ^ Z.of_nat places / d) places)%string.

Definition decimal_toFixed (q : Q) (digits : nat) : string :=
  let m := Qfloor (Qabs q * inject_Z (10 ^ Z.of_nat digits) + (1 # 2)) in
  (sign_text q ++ fixed_text m digits)%string.

(** Digits in groups of three, most significant first. *)
Fixpoint grouped (fuel : nat) (z : Z) : string :=
  match fuel with
  | O => Z_toString z
  | S fuel' =>
      if (z <? 1000)%Z then Z_toString z
      else (grouped fuel' (z / 1000) ++ "," ++
            pad_left 3 (Z_toString (z mod 1000)))%string
  end.

Fixpoint strip_zeros (s : string) : string :=
  match s with
  | EmptyString => EmptyString
  | String c rest =>
      match strip_zeros rest with
      | EmptyString =>
          if Ascii.eqb c "0" then EmptyString else String c EmptyString
      | kept => String c kept
      end
  end.

(** At most three fraction digits, trailing zeros dropped. *)
Definition en_US_toLocaleString (q : Q) : string :=
  let m := Qfloor (Qabs q * 1000 + (1 # 2)) in
  (sign_text q ++ grouped 30 (m / 1000) ++
   match (m mod 1000)%Z with
   | 0%Z => EmptyString
   | frac => "." ++ strip_zeros (pad_left 3 (Z_toString frac))
   end)%string.

(** A clock reading for the worked examples. *)
Definition example_clock : string := "2025-01-01T00:00:00.000Z".

Definition decimal_runtime (now : string) : Runtime :=
  {| Number_toString := decimal_toString;
     Number_toFixed := decimal_toFixed;
     Number_toLocaleString := en_US_toLocaleString;
     Date_toISOString := now |}.

End JS.

(* ===================================================================== *)
(** ** Handlers: state, effects and exceptions *)
(* ===================================================================== *)

Module Handler.

Inductive Error : Type :=
| FetchFailed                  (* fetch rejected: no response *)
| JsonSyntaxError              (* response.json() rejected *)
| TypeError (reading : string) (* a property read on null or undefined *)
| ErrorMessage (message : string).   (* new Error(message) *)

Inductive outcome (A : Type) : Type :=
| Return (a : A)
| Throw (e : Error).
Arguments Return {A} a.
Arguments Throw {A} e.

(** What one request gives: no response at all, or a status with the body
    parsed as JSON ([None] when it is not JSON). *)
Inductive FetchResult (B : Type) : Type :=
| NetworkError
| Response (status : Z) (body : option B).
Arguments NetworkError {B}.
Arguments Response {B} status body.

Section Monad.
Context {S E : Type}.

(** A handler over page state [S] performing effects [E]. *)
Definition M (A : Type) : Type := S -> outcome A * S * list E.

Definition ret {A : Type} (a : A) : M A := fun st => (Return a, st, []).

Definition throw {A : Type} (e : Error) : M A := fun st => (Throw e, st, []).

Definition bind {A B : Type} (m : M A) (k : A -> M B) : M B :=
  fun st =>
    match m st with
    | (Return a, st1, effects1) =>
        let '(r, st2, effects2) := k a st1 in (r, st2, effects1 ++ effects2)
    | (Throw e, st1, effects1) => (Throw e, st1, effects1)
    end.

(** [try { m } catch (error) { handler error }] *)
Definition try_catch {A : Type} (m : M A) (handler : Error -> M A) : M A :=
  fun st =>
    match m st with
    | (Return a, st1, effects1) => (Return a, st1, effects1)
    | (Throw e, st1, effects1) =>
        let '(r, st2, effects2) := handler e st1 in
        (r, st2, effects1 ++ effects2)
    end.

Definition perform (e : E) : M unit := fun st => (Return tt, st, [e]).

Definition get : M S := fun st => (Return st, st, []).

Definition modify (f : S -> S) : M unit := fun st => (Return tt, f st, []).

Definition lift {A : Type} (r : outcome A) : M A := fun st => (r, st, []).

(** [response.ok] *)
Definition ok {B : Type} (response : Z * option B) : bool :=
  ((200 <=? fst response) && (fst response <=? 299))%Z.

(** [await response.json()] *)
Definition json {B : Type} (response : Z * option B) : M B :=
  match snd response with
  | Some body => ret body
  | None => throw JsonSyntaxError
  end.

End Monad.

Arguments M : clear implicits.

Notation "x <- m ;; k" := (bind m (fun x => k))
  (at level 61, m at next level, right associativity).
Notation "m ;;; k" := (bind m (fun _ => k))
  (at level 61, right associativity).

(** The parts of the result of running a handler. *)
Definition result_of {S E A : Type} (r : outcome A * S * list E)
    : outcome A := fst (fst r).

Definition state_of {S E A : Type} (r : outcome A * S * list E) : S :=
  snd (fst r).

Definition effects_of {S E A : Type} (r : outcome A * S * list E)
    : list E := snd r.

End Handler.

(* ===================================================================== *)
(** ** The building-placement page *)
(* ===================================================================== *)

Module Placement.
Import JS.

(** [const gridSize = 30;] *)
Definition gridSize : number := Num 30.

(** A palette entry: the [data-building] and [data-size] attributes of a
    [.building-item]. *)
Record Element : Type := mkElement {
  data_building : string;
  data_size : string
}.

(** The [div] created by [placeBuilding]; [node] is its identity, lengths
    are in pixels. *)
Record BuildingDiv : Type := mkBuildingDiv {
  node : nat;
  className : string;
  style_left : number;
  style_top : number;
  style_width : number;
  style_height : number;
  textContent : string;
  dataset_type : string
}.

(** One entry of [placedBuildings]; [element] is the node of its [div]. *)
Record PlacedBuilding : Type := mkPlaced {
  element : nat;
  x : number;
  y : number;
  width : number;
  height : number;
  type : string
}.

Record DOMRect : Type := mkRect {
  rect_left : Q;
  rect_top : Q;
  rect_width : Q;
  rect_height : Q
}.

(** What [getBoundingClientRect] answers during one drop: the grid itself
    and the element found by [document.querySelector('.buildable-area')]. *)
Record Layout : Type := mkLayout {
  gridRect : DOMRect;
  buildableRect : DOMRect
}.

Record DragEvent : Type := mkDragEvent {
  clientX : Q;
  clientY : Q
}.

Record State : Type := mkState {
  draggedElement : option Element;
  placedBuildings : list PlacedBuilding;
  gridChildren : list BuildingDiv;   (* placed divs under #buildingGrid *)
  next_node : nat                    (* identity of the next created div *)
}.

Definition initial : State :=
  {| draggedElement := None; placedBuildings := [];
     gridChildren := []; next_node := 0 |}.

(** What a handler does besides updating the state. *)
Record ExportedBuilding : Type := mkExported {
  exp_type : string;
  position : number * number;        (* { x, y } *)
  dimensions : number * number       (* { width, height } *)
}.

Record DevelopmentData : Type := mkDevelopmentData {
  dev_placedBuildings : list ExportedBuilding;
  dev_timestamp : string
}.

Inductive effect : Type :=
| LogPlaced (type : string) (x y : number)
    (* console.log(`Placed ${type} at (${x}, ${y})`) *)
| Warning (text : string) (timeout_ms : nat)
    (* a div appended to the body and removed by setTimeout *)
| LogExport (data : DevelopmentData)
    (* console.log('Exporting Development Plan:', developmentData) *)
| Alert (text : string)
| Download (content filename : string).
    (* a file handed to the browser; no handler of this page does it *)

(** The snap of one raw coordinate:
    [Math.round(x / gridSize) * gridSize]. *)
Definition snap (raw : number) : number :=
  mul (Math_round (div raw gridSize)) gridSize.

(** [type.charAt(0).toUpperCase() + type.slice(1)] *)
Definition capitalise (type : string) : string :=
  match type with
  | String c rest => String (upper_char c) rest
  | EmptyString => EmptyString
  end.

Definition placeBuilding (x y width height : number) (type : string)
    (st : State) : State * list effect :=
  let building :=
    {| node := next_node st;
       className := "placed-building";
       style_left := x; style_top := y;
       style_width := width; style_height := height;
       textContent := capitalise type;
       dataset_type := type |} in
  ({| draggedElement := draggedElement st;
      placedBuildings :=
        placedBuildings st ++
          [ {| element := node building; x := x; y := y;
               width := width; height := height; type := type |} ];
      gridChildren := gridChildren st ++ [building];
      next_node := S (next_node st) |},
   [LogPlaced type x y]).

Definition showConstraintWarning (st : State) : State * list effect :=
  (st, [Warning "Cannot place building outside buildable area!" 2000]).

(** The test of the drop handler. *)
Definition withinBuildable (snappedX snappedY width height
    buildableX buildableY buildableWidth buildableHeight : number) : bool :=
  gte snappedX buildableX && gte snappedY buildableY &&
  lte (add snappedX width) (add buildableX buildableWidth) &&
  lte (add snappedY height) (add buildableY buildableHeight).

(** The [drop] listener of [#buildingGrid]; [e.preventDefault()] only
    tells the browser the drop is handled. *)
Definition drop (lay : Layout) (e : DragEvent) (st : State)
    : State * list effect :=
  match draggedElement st with
  | None => (st, [])
  | Some dragged =>
      let rect := gridRect lay in
      let x := sub (Num (clientX e)) (Num (rect_left rect)) in
      let y := sub (Num (clientY e)) (Num (rect_top rect)) in
      let snappedX := snap x in
      let snappedY := snap y in
      let buildingType := data_building dragged in
      let buildingSize := split "x" (data_size dragged) in
      let width := parseInt (nth_error buildingSize 0) in
      let height := parseInt (nth_error buildingSize 1) in
      let buildableRect := buildableRect lay in
      let gridRect := gridRect lay in
      let buildableX :=
        sub (Num (rect_left buildableRect)) (Num (rect_left gridRect)) in
      let buildableY :=
        sub (Num (rect_top buildableRect)) (Num (rect_top gridRect)) in
      let buildableWidth := Num (rect_width buildableRect) in
      let buildableHeight := Num (rect_height buildableRect) in
      let (st', effects) :=
        if withinBuildable snappedX snappedY width height
             buildableX buildableY buildableWidth buildableHeight
        then placeBuilding snappedX snappedY width height buildingType st
        else showConstraintWarning st in
      ({| draggedElement := None;
          placedBuildings := placedBuildings st';
          gridChildren := gridChildren st';
          next_node := next_node st' |}, effects)
  end.

(** The [dragstart] listener of a palette entry. *)
Definition dragstart (item : Element) (st : State) : State * list effect :=
  ({| draggedElement := Some item;
      placedBuildings := placedBuildings st;
      gridChildren := gridChildren st;
      next_node := next_node st |}, []).

(** The [dblclick] listener of the placed div with identity [this]. *)
Definition dblclick (this : nat) (st : State) : State * list effect :=
  let children :=
    filter (fun d => negb (Nat.eqb (node d) this)) (gridChildren st) in
  let index :=
    findIndex (fun b => Nat.eqb (element b) this) (placedBuildings st) in
  ({| draggedElement := draggedElement st;
      placedBuildings :=
        match index with
        | Some i => splice1 i (placedBuildings st)
        | None => placedBuildings st
        end;
      gridChildren := children;
      next_node := next_node st |}, []).

(** [exportDevelopment]; [now] is [new Date().toISOString()]. *)
Definition developmentData (now : string) (st : State) : DevelopmentData :=
  {| dev_placedBuildings :=
       map (fun b => {| exp_type := type b;
                        position := (x b, y b);
                        dimensions := (width b, height b) |})
           (placedBuildings st);
     dev_timestamp := now |}.

Definition exportDevelopment (now : string) (st : State)
    : State * list effect :=
  (st,
   [ LogExport (developmentData now st);
     Alert ("Development Plan exported successfully!" ++ LF ++ LF ++
            "Buildings placed: " ++
            nat_toString (List.length (placedBuildings st)) ++ LF ++ LF ++
            "This would normally send the plan to your Sgiach platform for cost analysis and feasibility assessment.") ]).

(** The user actions of the page and the states they lead to. *)
Inductive action : Type :=
| DragStart (item : Element)
| Drop (lay : Layout) (e : DragEvent)
| DblClick (this : nat)
| ExportDevelopment (now : string).

Definition handle (a : action) (st : State) : State * list effect :=
  match a with
  | DragStart item => dragstart item st
  | Drop lay e => drop lay e st
  | DblClick this => dblclick this st
  | ExportDevelopment now => exportDevelopment now st
  end.

Inductive reachable : State -> Prop :=
| reachable_initial : reachable initial
| reachable_step a st :
    reachable st -> reachable (fst (handle a st)).

(** A number that is an exact multiple of the grid unit. *)
Definition grid_multiple (n : number) : Prop :=
  match n with
  | Num q => exists k : Z, q == inject_Z (k * 30)
  | NaN => False
  end.

(** [a <= b] as a proposition: it holds between finite numbers only. *)
Definition le (a b : number) : Prop :=
  match a, b with
  | Num p, Num q => p <= q
  | _, _ => False
  end.

(** The quantities the drop handler names, as functions of its inputs. *)
Definition snappedX (lay : Layout) (e : DragEvent) : number :=
  snap (sub (Num (clientX e)) (Num (rect_left (gridRect lay)))).

Definition snappedY (lay : Layout) (e : DragEvent) : number :=
  snap (sub (Num (clientY e)) (Num (rect_top (gridRect lay)))).

Definition item_width (item : Element) : number :=
  parseInt (nth_error (split "x" (data_size item)) 0).

Definition item_height (item : Element) : number :=
  parseInt (nth_error (split "x" (data_size item)) 1).

Definition buildableX (lay : Layout) : number :=
  sub (Num (rect_left (buildableRect lay))) (Num (rect_left (gridRect lay))).

Definition buildableY (lay : Layout) : number :=
  sub (Num (rect_top (buildableRect lay))) (Num (rect_top (gridRect lay))).

Definition buildableWidth (lay : Layout) : number :=
  Num (rect_width (buildableRect lay)).

Definition buildableHeight (lay : Layout) : number :=
  Num (rect_height (buildableRect lay)).

(** The placement condition: the snapped corner and the footprint
    [width] x [height] lie inside the buildable rectangle. *)
Definition inside_buildable (lay : Layout) (e : DragEvent)
    (width height : number) : Prop :=
  le (buildableX lay) (snappedX lay e) /\
  le (buildableY lay) (snappedY lay e) /\
  le (add (snappedX lay e) width)
     (add (buildableX lay) (buildableWidth lay)) /\
  le (add (snappedY lay e) height)
     (add (buildableY lay) (buildableHeight lay)).

(** The record a successful drop of [item] appends. *)
Definition placed_record (lay : Layout) (e : DragEvent) (item : Element)
    (st : State) : PlacedBuilding :=
  {| element := next_node st;
     x := snappedX lay e; y := snappedY lay e;
     width := item_width item; height := item_height item;
     type := data_building item |}.

Definition rejection : effect :=
  Warning "Cannot place building outside buildable area!" 2000.

(** The placement property read for every drop event: a record is appended
    exactly when the condition holds, the footprint being the dragged
    entry's when there is one, and a failed condition shows the warning. *)
Definition every_drop_places_iff_inside (lay : Layout) (e : DragEvent)
    (st : State) : Prop :=
  forall width height : number,
    (forall item, draggedElement st = Some item ->
       width = item_width item /\ height = item_height item) ->
    ((exists b, placedBuildings (fst (drop lay e st)) =
                placedBuildings st ++ [b]) <->
     inside_buildable lay e width height) /\
    (~ inside_buildable lay e width height ->
     In rejection (snd (drop lay e st)) /\
     placedBuildings (fst (drop lay e st)) = placedBuildings st).

(** Both coordinates of a record are on the grid. *)
Definition on_grid (b : PlacedBuilding) : Prop :=
  grid_multiple (x b) /\ grid_multiple (y b).

(** Every record belongs to a div of its own, created earlier. *)
Definition nodes_distinct (st : State) : Prop :=
  Forall (fun b => (element b < next_node st)%nat) (placedBuildings st) /\
  NoDup (map element (placedBuildings st)).

(** The five fields an export keeps of a record. *)
Definition tuple_of (b : PlacedBuilding)
    : string * number * number * number * number :=
  (type b, x b, y b, width b, height b).

Definition tuple_of_exported (b : ExportedBuilding)
    : string * number * number * number * number :=
  (exp_type b, fst (position b), snd (position b),
   fst (dimensions b), snd (dimensions b)).

(** A file is handed to the browser. *)
Definition produces_file (effects : list effect) : Prop :=
  exists content filename, In (Download content filename) effects.

(** A page laid out with a 600x500 grid whose buildable area is inset by 80
    on every side, and the state after a single-family house and a garden
    have been dropped on it. *)
Definition sample_layout : Layout :=
  {| gridRect := mkRect 0 0 600 500;
     buildableRect := mkRect 80 80 440 340 |}.

Definition sample_state : State :=
  fst (handle (Drop sample_layout (mkDragEvent 260 200))
    (fst (handle (DragStart (mkElement "garden" "80x80"))
      (fst (handle (Drop sample_layout (mkDragEvent 85 95))
        (fst (handle (DragStart (mkElement "single-family" "120x80"))
               initial))))))).

End Placement.

(* ===================================================================== *)
(** ** The landing page [sgiach-app.html] *)
(* ===================================================================== *)

Module Landing.
Import JS Handler.
Local Open Scope string_scope.

(** The response of [/analyze], shaped as the page reads it; numbers are
    finite JSON numbers. *)
Record Property : Type := mkProperty {
  address : string;
  price : Q;
  lot_size : Q;
  zoning : string;
  source : string
}.

Record FinancialAnalysis : Type := mkFinancial {
  total_development_cost : Q;
  projected_value : Q;
  roi_percentage : Q;
  payback_period_months : Q;
  net_profit : Q
}.

Record Scenario : Type := mkScenario {
  scenario_type : string;
  description : string;
  zoning_compliance : string;
  financial_analysis : FinancialAnalysis;
  timeline_months : Q;
  risk_score : Q
}.

Record Opportunity : Type := mkOpportunity {
  property : Property;
  scenarios : list Scenario;
  score : Q
}.

Record Summary : Type := mkSummary {
  total_properties_found : Q;
  properties_analyzed : Q;
  avg_roi : Q;
  top_opportunity_roi : Q
}.

Record AnalysisData : Type := mkAnalysisData {
  summary : Summary;
  opportunities : list Opportunity;
  analysis_timestamp : string;
  data_sources : list string
}.

(** What [getFormData] reads off the form; [parseInt] and [parseFloat] may
    give [NaN]. *)
Record FormData : Type := mkFormData {
  city : string;
  province : string;
  min_price : number;
  max_price : number;
  risk_tolerance : number;
  min_roi_threshold : number;
  preferred_property_types : list string;
  max_development_timeline_months : number
}.

(** The form as the page loads it is of no consequence below; this one
    asks for Edmonton between 500000 and 2000000. *)
Definition sample_form : FormData :=
  {| city := "Edmonton"; province := "AB";
     min_price := Num 500000; max_price := Num 2000000;
     risk_tolerance := Num (5 # 10); min_roi_threshold := Num 15;
     preferred_property_types := ["residential"];
     max_development_timeline_months := Num 24 |}.

(** Rendered markup: text and [div]s with a class.  Interpolated text is
    taken to hold no markup of its own. *)
#[local] Unset Elimination Schemes.
Inductive html : Type :=
| Text (s : string)
| Div (class : string) (children : list html).
#[local] Set Elimination Schemes.

Record State : Type := mkState {
  currentAnalysisData : option AnalysisData;
  apiStatus_className : string;
  statusIndicator_textContent : string;
  statusText_textContent : string;
  resultsSummary_textContent : string;
  propertiesGrid : list html;
  resultsContainer_display : string
}.

(** The page as loaded. *)
Definition initial : State :=
  {| currentAnalysisData := None;
     apiStatus_className := "api-status";
     statusIndicator_textContent := "●";
     statusText_textContent := "Connecting to API...";
     resultsSummary_textContent := "";
     propertiesGrid := [];
     resultsContainer_display := "none" |}.

Inductive effect : Type :=
| Fetch (method url : string)
| ConsoleLog (text : string)
| ConsoleLogError (text : string) (error : Error)
| Toast (type text : string)         (* shown for 4000 ms *)
| DownloadFile (content filename type : string)
| ScrollIntoView (id : string).

(** The parsed body of [/health] as far as the page looks at it: JSON
    [null], or a value with its [message] property if any. *)
Inductive HealthData : Type :=
| HealthNull
| HealthValue (message : option string).

Record Network : Type := mkNetwork {
  get_health : FetchResult HealthData;
  get_root : FetchResult unit;
  post_analyze : FormData -> FetchResult Json
}.

(** The [/health] probe succeeds: a 2xx status and a JSON body whose
    [message] can be read. *)
Definition health_probe_succeeds (net : Network) : bool :=
  match get_health net with
  | Response status (Some (HealthValue _)) =>
      ((200 <=? status) && (status <=? 299))%Z
  | _ => false
  end.

(** The [/] probe succeeds: a 2xx status. *)
Definition root_probe_succeeds (net : Network) : bool :=
  match get_root net with
  | Response status _ => ((200 <=? status) && (status <=? 299))%Z
  | NetworkError => false
  end.

Definition health_url : string := "http://127.0.0.1:8000/health".
Definition root_url : string := "http://127.0.0.1:8000/".

Definition disconnected_notice : string :=
  "Cannot connect to Real Estate Analysis API. Using test data for demonstration.".

(** Handlers of this page. *)
Definition M : Type -> Type := Handler.M State effect.

Section Page.
Context {rt : Runtime}.

(** [const API_BASE_URL = 'http://127.0.0.1:8000';] *)
Definition API_BASE_URL : string := "http://127.0.0.1:8000".

(** [await fetch(url)]: the request goes out; no response is a rejection. *)
Definition fetch {S B : Type} (method url : string)
    (result : FetchResult B) : Handler.M S effect (Z * option B) :=
  perform (Fetch method url) ;;;
  match result with
  | NetworkError => throw FetchFailed
  | Response status body => ret (status, body)
  end.

(** [showMessage(text, type)]: a console line and a toast. *)
Definition showMessage {S : Type} (text type : string)
    : Handler.M S effect unit :=
  perform (ConsoleLog (toUpperCase type ++ ": " ++ text)) ;;;
  perform (Toast type text).

Definition set_status (className indicator text : string) : M unit :=
  modify (fun st =>
    {| currentAnalysisData := currentAnalysisData st;
       apiStatus_className := className;
       statusIndicator_textContent := indicator;
       statusText_textContent := text;
       resultsSummary_textContent := resultsSummary_textContent st;
       propertiesGrid := propertiesGrid st;
       resultsContainer_display := resultsContainer_display st |}).

Definition set_className (className : string) : M unit :=
  st <- get ;;
  set_status className (statusIndicator_textContent st)
    (statusText_textContent st).

Definition set_indicator (indicator : string) : M unit :=
  st <- get ;;
  set_status (apiStatus_className st) indicator (statusText_textContent st).

Definition set_text (text : string) : M unit :=
  st <- get ;;
  set_status (apiStatus_className st) (statusIndicator_textContent st) text.

(** [healthData.message || 'Ready'], a [TypeError] on [null]. *)
Definition message_or_Ready (healthData : HealthData) : M string :=
  match healthData with
  | HealthNull => throw (TypeError "message")
  | HealthValue (Some message) =>
      ret (if String.eqb message "" then "Ready" else message)
  | HealthValue None => ret "Ready"
  end.

Definition checkAPIConnection (net : Network) : M unit :=
  try_catch
    (response <- fetch "GET" (API_BASE_URL ++ "/health") (get_health net) ;;
     if ok response then
       healthData <- json response ;;
       set_className "api-status connected" ;;;
       set_indicator "●" ;;;
       message <- message_or_Ready healthData ;;
       set_text ("API Connected - " ++ message)
     else throw (ErrorMessage "Health check failed"))
    (fun error =>
       try_catch
         (fallbackResponse <-
            fetch "GET" (API_BASE_URL ++ "/") (get_root net) ;;
          if ok fallbackResponse then
            set_className "api-status connected" ;;;
            set_indicator "●" ;;;
            set_text "API Connected"
          else throw (ErrorMessage "API not responding"))
         (fun fallbackError =>
            set_className "api-status disconnected" ;;;
            set_indicator "●" ;;;
            set_text "API Disconnected - Using Test Data" ;;;
            showMessage
              "Cannot connect to Real Estate Analysis API. Using test data for demonstration."
              "info")).

(** [getTestData(formData)]: the hard-coded substitute result. *)
Definition getTestData (formData : FormData) : AnalysisData :=
  {| summary :=
       {| total_properties_found := 15;
          properties_analyzed := 12;
          avg_roi := 285 # 10;
          top_opportunity_roi := 452 # 10 |};
     opportunities :=
       [ {| property :=
              {| address := "10542 82 Avenue NW, Edmonton, AB";
                 price := 850000;
                 lot_size := 12 # 100;
                 zoning := "RA7";
                 source := "Realtor.ca" |};
            scenarios :=
              [ {| scenario_type := "Mid-Rise Apartment";
                   description :=
                     "4-story, 24-unit residential building with ground floor commercial";
                   zoning_compliance := "RA7 - Compliant";
                   financial_analysis :=
                     {| total_development_cost := 2400000;
                        projected_value := 3200000;
                        roi_percentage := 333 # 10;
                        payback_period_months := 22;
                        net_profit := 800000 |};
                   timeline_months := 18;
                   risk_score := 4 # 10 |} ];
            score := 87 # 10 |};
         {| property :=
              {| address := "8720 118 Avenue NW, Edmonton, AB";
                 price := 1200000;
                 lot_size := 18 # 100;
                 zoning := "CB1";
                 source := "Kijiji" |};
            scenarios :=
              [ {| scenario_type := "Mixed-Use Development";
                   description :=
                     "3-story mixed-use with retail and office space";
                   zoning_compliance := "CB1 - Compliant";
                   financial_analysis :=
                     {| total_development_cost := 3800000;
                        projected_value := 4900000;
                        roi_percentage := 289 # 10;
                        payback_period_months := 26;
                        net_profit := 1100000 |};
                   timeline_months := 24;
                   risk_score := 5 # 10 |} ];
            score := 82 # 10 |} ];
     analysis_timestamp := Date_toISOString;
     data_sources := ["Realtor.ca"; "Kijiji"; "RealtyLink"] |}.

(** The JSON value of a result of the [/analyze] shape, fields in the
    order of the literal in [getTestData]. *)
Definition Property_to_Json (p : Property) : Json :=
  JObject
    [ ("address", JString (address p)); ("price", JNumber (price p));
      ("lot_size", JNumber (lot_size p)); ("zoning", JString (zoning p));
      ("source", JString (source p)) ].

Definition FinancialAnalysis_to_Json (fa : FinancialAnalysis) : Json :=
  JObject
    [ ("total_development_cost", JNumber (total_development_cost fa));
      ("projected_value", JNumber (projected_value fa));
      ("roi_percentage", JNumber (roi_percentage fa));
      ("payback_period_months", JNumber (payback_period_months fa));
      ("net_profit", JNumber (net_profit fa)) ].

Definition Scenario_to_Json (scenario : Scenario) : Json :=
  JObject
    [ ("type", JString (scenario_type scenario));
      ("description", JString (description scenario));
      ("zoning_compliance", JString (zoning_compliance scenario));
      ("financial_analysis",
       FinancialAnalysis_to_Json (financial_analysis scenario));
      ("timeline_months", JNumber (timeline_months scenario));
      ("risk_score", JNumber (risk_score scenario)) ].

Definition Opportunity_to_Json (opportunity : Opportunity) : Json :=
  JObject
    [ ("property", Property_to_Json (property opportunity));
      ("scenarios", JArray (map Scenario_to_Json (scenarios opportunity)));
      ("score", JNumber (score opportunity)) ].

Definition Summary_to_Json (sm : Summary) : Json :=
  JObject
    [ ("total_properties_found", JNumber (total_properties_found sm));
      ("properties_analyzed", JNumber (properties_analyzed sm));
      ("avg_roi", JNumber (avg_roi sm));
      ("top_opportunity_roi", JNumber (top_opportunity_roi sm)) ].

Definition to_Json (data : AnalysisData) : Json :=
  JObject
    [ ("summary", Summary_to_Json (summary data));
      ("opportunities",
       JArray (map Opportunity_to_Json (opportunities data)));
      ("analysis_timestamp", JString (analysis_timestamp data));
      ("data_sources", JArray (map JString (data_sources data))) ].

(** [performAnalysis(formData)]: the parsed body of a 2xx answer is handed
    on as it is; it touches no state of the page. *)
Definition performAnalysis {S : Type} (net : Network) (formData : FormData)
    : Handler.M S effect Json :=
  try_catch
    (response <-
       fetch "POST" (API_BASE_URL ++ "/analyze") (post_analyze net formData) ;;
     if negb (ok response)
     then throw (ErrorMessage ("API Error: " ++ Z_toString (fst response)))
     else json response)
    (fun error =>
       perform (ConsoleLogError "Using test data due to API error:" error) ;;;
       ret (to_Json (getTestData formData))).

(** One [div.metric] of a scenario card. *)
Definition metric (value label : string) : html :=
  Div "metric"
    [Div "metric-value" [Text value]; Div "metric-label" [Text label]].

(** The markup the template builds for one scenario. *)
Definition scenarioCard (scenario : Scenario) : html :=
  Div "scenario-card"
    [ Div "scenario-type" [Text (scenario_type scenario)];
      Div "scenario-description" [Text (description scenario)];
      Div "scenario-metrics"
        [ metric
            (Number_toString
               (roi_percentage (financial_analysis scenario)) ++ "%")
            "ROI";
          metric (Number_toString (timeline_months scenario) ++ "mo")
            "Timeline";
          metric
            ("$" ++
             Number_toFixed
               (total_development_cost (financial_analysis scenario)
                  / 1000000) 1 ++ "M")
            "Investment";
          metric
            ("$" ++
             Number_toFixed
               (net_profit (financial_analysis scenario) / 1000) 0 ++ "K")
            "Net Profit" ] ].

(** [createPropertyCard(opportunity, rank)] *)
Definition createPropertyCard (opportunity : Opportunity) (rank : nat)
    : html :=
  let property := property opportunity in
  let mainScenario := nth_error (scenarios opportunity) 0 in
  Div "property-card"
    [ Div "property-header"
        [ Div ""
            [ Div "property-title"
                [Text ("#" ++ nat_toString rank ++ " - " ++ address property)];
              Div "property-address"
                [Text ("Zoning: " ++ zoning property ++ " | Lot: " ++
                       Number_toString (lot_size property) ++
                       " acres | Source: " ++ source property)];
              Div "property-price"
                [Text ("$" ++ Number_toLocaleString (price property))] ] ];
      Div "scenarios-section"
        [ Div "scenarios-title" [Text "Development Scenarios"];
          Div "scenarios-grid" (map scenarioCard (scenarios opportunity)) ] ].

(** [arr.forEach((item, index) => ...)] collecting what each call appends. *)
Fixpoint mapi {A B : Type} (f : A -> nat -> B) (index : nat) (l : list A)
    : list B :=
  match l with
  | [] => []
  | a :: rest => f a index :: mapi f (S index) rest
  end.

(** [displayResults(results)] *)
Definition displayResults (results : AnalysisData) : M unit :=
  modify (fun st =>
    {| currentAnalysisData := Some results;
       apiStatus_className := apiStatus_className st;
       statusIndicator_textContent := statusIndicator_textContent st;
       statusText_textContent := statusText_textContent st;
       resultsSummary_textContent :=
         "Found " ++
         Number_toString (total_properties_found (summary results)) ++
         " properties, analyzed " ++
         Number_toString (properties_analyzed (summary results)) ++
         " opportunities. " ++
         "Average ROI: " ++ Number_toString (avg_roi (summary results)) ++
         "%. Top opportunity: " ++
         Number_toString (top_opportunity_roi (summary results)) ++ "% ROI.";
       propertiesGrid :=
         mapi (fun opportunity index =>
                 createPropertyCard opportunity (index + 1))
              0 (opportunities results);
       resultsContainer_display := "block" |}) ;;;
  perform (ScrollIntoView "resultsContainer").

(** [downloadFile(content, filename, type)] *)
Definition downloadFile (content filename type : string) : M unit :=
  perform (DownloadFile content filename type).

Definition csv_header : string :=
  "Rank,Address,Price,Zoning,ROI,Timeline,Investment,Profit" ++ LF.

(** The text one [forEach] call of [exportCSV] appends; reading
    [financial_analysis] off a missing first scenario throws. *)
Definition csv_row (opp : Opportunity) (index : nat) : outcome string :=
  let prop := property opp in
  match nth_error (scenarios opp) 0 with
  | None => Throw (TypeError "financial_analysis")
  | Some scenario =>
      let fa := financial_analysis scenario in
      Return
        (nat_toString (index + 1) ++ "," ++
         quote ++ address prop ++ quote ++ "," ++
         Number_toString (price prop) ++ "," ++
         zoning prop ++ "," ++
         Number_toString (roi_percentage fa) ++ "," ++
         Number_toString (timeline_months scenario) ++ "," ++
         Number_toString (total_development_cost fa) ++ "," ++
         Number_toString (net_profit fa) ++ LF)
  end.

(** The [forEach] loop of [exportCSV], [csv] being the text so far. *)
Fixpoint csv_rows (opps : list Opportunity) (index : nat) (csv : string)
    : outcome string :=
  match opps with
  | [] => Return csv
  | opp :: rest =>
      match csv_row opp index with
      | Return row => csv_rows rest (S index) (csv ++ row)
      | Throw e => Throw e
      end
  end.

(** [exportCSV()] *)
Definition exportCSV : M unit :=
  st <- get ;;
  match currentAnalysisData st with
  | None => ret tt
  | Some data =>
      csv <- lift (csv_rows (opportunities data) 0 csv_header) ;;
      downloadFile csv "sgiach-analysis.csv" "text/csv" ;;;
      showMessage "Analysis exported to CSV successfully!" "success"
  end.

(** [newSearch()] *)
Definition newSearch : M unit :=
  modify (fun st =>
    {| currentAnalysisData := currentAnalysisData st;
       apiStatus_className := apiStatus_className st;
       statusIndicator_textContent := statusIndicator_textContent st;
       statusText_textContent := statusText_textContent st;
       resultsSummary_textContent := resultsSummary_textContent st;
       propertiesGrid := propertiesGrid st;
       resultsContainer_display := "none" |}) ;;;
  perform (ScrollIntoView "analysisForm") ;;;
  modify (fun st =>
    {| currentAnalysisData := None;
       apiStatus_className := apiStatus_className st;
       statusIndicator_textContent := statusIndicator_textContent st;
       statusText_textContent := statusText_textContent st;
       resultsSummary_textContent := resultsSummary_textContent st;
       propertiesGrid := propertiesGrid st;
       resultsContainer_display := resultsContainer_display st |}).

(** *** Reading a card back *)

(** Every [div] of class [cls] in a piece of markup, in document order. *)
Fixpoint collect (cls : string) (h : html) : list html :=
  match h with
  | Text _ => []
  | Div c children =>
      ((if String.eqb c cls then [h] else []) ++
       flat_map (collect cls) children)%list
  end.

(** The texts shown in the [div.metric-value]s of a scenario. *)
Definition metric_values (scenario : Scenario) : list html :=
  [ Div "metric-value"
      [Text (Number_toString
               (roi_percentage (financial_analysis scenario)) ++ "%")];
    Div "metric-value"
      [Text (Number_toString (timeline_months scenario) ++ "mo")];
    Div "metric-value"
      [Text ("$" ++
             Number_toFixed
               (total_development_cost (financial_analysis scenario)
                  / 1000000) 1 ++ "M")];
    Div "metric-value"
      [Text ("$" ++
             Number_toFixed
               (net_profit (financial_analysis scenario) / 1000) 0 ++
             "K")] ].

(** A card that shows the metrics of the first scenario and of no other. *)
Definition shows_first_scenario_only (opportunity : Opportunity)
    (card : html) : Prop :=
  collect "metric-value" card =
    flat_map metric_values (firstn 1 (scenarios opportunity)).

(** *** Reading an export back *)

Fixpoint join (rows : list string) : string :=
  match rows with
  | [] => ""
  | row :: rest => row ++ join rest
  end.

(** The line of the CSV for the opportunity at [index], taken from
    [scenario]. *)
Definition csv_line (index : nat) (opp : Opportunity) (scenario : Scenario)
    : string :=
  nat_toString (index + 1) ++ "," ++
  quote ++ address (property opp) ++ quote ++ "," ++
  Number_toString (price (property opp)) ++ "," ++
  zoning (property opp) ++ "," ++
  Number_toString (roi_percentage (financial_analysis scenario)) ++ "," ++
  Number_toString (timeline_months scenario) ++ "," ++
  Number_toString (total_development_cost (financial_analysis scenario)) ++
  "," ++
  Number_toString (net_profit (financial_analysis scenario)) ++ LF.

(** The export hands over a CSV file of the header and one row per
    opportunity. *)
Definition csv_exported (data : AnalysisData) (effects : list effect)
    : Prop :=
  exists rows,
    List.length rows = List.length (opportunities data) /\
    In (DownloadFile (csv_header ++ join rows) "sgiach-analysis.csv"
          "text/csv") effects.

(** An opportunity with two scenarios: the first test opportunity, given
    the mixed-use scenario of the second as an alternative; and one without
    any scenario. *)
Definition two_scenarios (formData : FormData) : Opportunity :=
  match opportunities (getTestData formData) with
  | first :: second :: _ =>
      {| property := property first;
         scenarios := (scenarios first ++ scenarios second)%list;
         score := score first |}
  | _ => {| property := mkProperty "" 0 0 "" ""; scenarios := [];
            score := 0 |}
  end.

Definition no_scenario : Opportunity :=
  {| property :=
       {| address := "9912 109 Street NW, Edmonton, AB"; price := 640000;
          lot_size := 9 # 100; zoning := "DC2"; source := "RealtyLink" |};
     scenarios := [];
     score := 51 # 10 |}.

Definition holding (data : AnalysisData) : State :=
  {| currentAnalysisData := Some data;
     apiStatus_className := apiStatus_className initial;
     statusIndicator_textContent := statusIndicator_textContent initial;
     statusText_textContent := statusText_textContent initial;
     resultsSummary_textContent := resultsSummary_textContent initial;
     propertiesGrid := propertiesGrid initial;
     resultsContainer_display := resultsContainer_display initial |}.

(** The test data with a lot for which no scenario was worked out. *)
Definition with_unplanned_lot (formData : FormData) : AnalysisData :=
  {| summary := summary (getTestData formData);
     opportunities :=
       (opportunities (getTestData formData) ++ [no_scenario])%list;
     analysis_timestamp := analysis_timestamp (getTestData formData);
     data_sources := data_sources (getTestData formData) |}.

End Page.

End Landing.

(* ===================================================================== *)
(** ** The landing page: rendering whatever the server sent *)
(* ===================================================================== *)

Module Wire.
Import JS Handler Landing.
Local Open Scope string_scope.

(** A value met while reading parsed JSON; [None] is [undefined]. *)
Definition value : Type := option Json.

(** The own property [key] of an object; of two entries with one key the
    later counts, as [JSON.parse] has it. *)
Fixpoint own_property (fields : list (string * Json)) (key : string)
    : value :=
  match fields with
  | [] => None
  | (k, v) :: rest =>
      match own_property rest key with
      | Some later => Some later
      | None => if String.eqb k key then Some v else None
      end
  end.

(** [v.key] for the keys the page reads, none of which a number, a string,
    a boolean or an array has: a [TypeError] on [null] and [undefined]. *)
Definition read (v : value) (key : string) : outcome value :=
  match v with
  | None => Throw (TypeError key)
  | Some JNull => Throw (TypeError key)
  | Some (JObject fields) => Return (own_property fields key)
  | Some _ => Return None
  end.

(** [v[0]], evaluated for its exception only. *)
Definition first_of (v : value) : outcome unit :=
  match v with
  | None => Throw (TypeError "0")
  | Some JNull => Throw (TypeError "0")
  | Some _ => Return tt
  end.

Definition and_then {A B : Type} (r : outcome A) (k : A -> outcome B)
    : outcome B :=
  match r with
  | Return a => k a
  | Throw e => Throw e
  end.

Notation "x <~ r ;; k" := (and_then r (fun x => k))
  (at level 61, r at next level, right associativity).

(** [arr.map(f)] where [f] may throw. *)
Fixpoint map_outcome {A B : Type} (f : A -> outcome B) (l : list A)
    : outcome (list B) :=
  match l with
  | [] => Return []
  | a :: rest =>
      b <~ f a ;;
      bs <~ map_outcome f rest ;;
      Return (b :: bs)
  end.

(** The results section of the page; [currentAnalysisData] holds whatever
    value was last displayed. *)
Record Page : Type := mkPage {
  currentAnalysisData : option Json;
  resultsSummary_textContent : string;
  propertiesGrid : list html;
  resultsContainer_display : string
}.

Definition loaded : Page :=
  {| currentAnalysisData := None; resultsSummary_textContent := "";
     propertiesGrid := []; resultsContainer_display := "none" |}.

Definition M : Type -> Type := Handler.M Page Landing.effect.

(** What the browser makes of values where the page expects a number. *)
Class Coercions : Type := {
  compound_toLocaleString : Json -> string;
    (* v.toLocaleString() of an array or object *)
  coerced_toFixed : value -> Q -> nat -> string;
    (* (v / d).toFixed(n) for v that is not a number *)
  coerced_positive : Json -> bool
    (* v > 0 for v that is a string, an array or an object *)
}.

Section Rendering.
Context {rt : Runtime} {co : Coercions}.

(** [`${j}`] *)
Fixpoint text_of_json (j : Json) : string :=
  match j with
  | JNull => "null"
  | JBool true => "true"
  | JBool false => "false"
  | JNumber q => Number_toString q
  | JString s => s
  | JArray items =>
      (fix joined (l : list Json) : string :=
         match l with
         | [] => ""
         | x :: rest =>
             match x with JNull => "" | _ => text_of_json x end ++
             match rest with [] => "" | _ :: _ => "," ++ joined rest end
         end) items
  | JObject _ => "[object Object]"
  end.

Definition text (v : value) : string :=
  match v with
  | None => "undefined"
  | Some j => text_of_json j
  end.

(** [v.toLocaleString()] *)
Definition toLocaleString_of (v : value) : outcome string :=
  match v with
  | None => Throw (TypeError "toLocaleString")
  | Some JNull => Throw (TypeError "toLocaleString")
  | Some (JNumber q) => Return (Number_toLocaleString q)
  | Some (JString s) => Return s
  | Some (JBool b) => Return (if b then "true" else "false")
  | Some compound => Return (compound_toLocaleString compound)
  end.

(** [(v / divisor).toFixed(digits)] *)
Definition toFixed_of (v : value) (divisor : Q) (digits : nat) : string :=
  match v with
  | Some (JNumber q) => Number_toFixed (q / divisor) digits
  | _ => coerced_toFixed v divisor digits
  end.

(** The markup of one scenario, read off the value. *)
Definition scenarioCard (scenario : Json) : outcome html :=
  type <~ read (Some scenario) "type" ;;
  description <~ read (Some scenario) "description" ;;
  financial <~ read (Some scenario) "financial_analysis" ;;
  roi <~ read financial "roi_percentage" ;;
  timeline <~ read (Some scenario) "timeline_months" ;;
  cost <~ read financial "total_development_cost" ;;
  profit <~ read financial "net_profit" ;;
  Return
    (Div "scenario-card"
       [ Div "scenario-type" [Text (text type)];
         Div "scenario-description" [Text (text description)];
         Div "scenario-metrics"
           [ metric (text roi ++ "%") "ROI";
             metric (text timeline ++ "mo") "Timeline";
             metric ("$" ++ toFixed_of cost 1000000 1 ++ "M") "Investment";
             metric ("$" ++ toFixed_of profit 1000 0 ++ "K") "Net Profit" ]
       ]).

(** [createPropertyCard(opportunity, rank)] on an element of the
    [opportunities] array. *)
Definition createPropertyCard (opportunity : Json) (rank : nat)
    : outcome html :=
  property <~ read (Some opportunity) "property" ;;
  scenarios <~ read (Some opportunity) "scenarios" ;;
  mainScenario <~ first_of scenarios ;;
  address <~ read property "address" ;;
  zoning <~ read property "zoning" ;;
  lot_size <~ read property "lot_size" ;;
  source <~ read property "source" ;;
  price <~ read property "price" ;;
  price_text <~ toLocaleString_of price ;;
  cards <~ match scenarios with
           | Some (JArray items) => map_outcome scenarioCard items
           | _ => Throw (TypeError "map")
           end ;;
  Return
    (Div "property-card"
       [ Div "property-header"
           [ Div ""
               [ Div "property-title"
                   [Text ("#" ++ nat_toString rank ++ " - " ++ text address)];
                 Div "property-address"
                   [Text ("Zoning: " ++ text zoning ++ " | Lot: " ++
                          text lot_size ++ " acres | Source: " ++
                          text source)];
                 Div "property-price" [Text ("$" ++ price_text)] ] ];
         Div "scenarios-section"
           [ Div "scenarios-title" [Text "Development Scenarios"];
             Div "scenarios-grid" cards ] ]).

Definition set_held (results : Json) : M unit :=
  modify (fun page =>
    {| currentAnalysisData := Some results;
       resultsSummary_textContent := resultsSummary_textContent page;
       propertiesGrid := propertiesGrid page;
       resultsContainer_display := resultsContainer_display page |}).

Definition set_summary (text : string) : M unit :=
  modify (fun page =>
    {| currentAnalysisData := currentAnalysisData page;
       resultsSummary_textContent := text;
       propertiesGrid := propertiesGrid page;
       resultsContainer_display := resultsContainer_display page |}).

Definition set_grid (f : list html -> list html) : M unit :=
  modify (fun page =>
    {| currentAnalysisData := currentAnalysisData page;
       resultsSummary_textContent := resultsSummary_textContent page;
       propertiesGrid := f (propertiesGrid page);
       resultsContainer_display := resultsContainer_display page |}).

Definition set_display (display : string) : M unit :=
  modify (fun page =>
    {| currentAnalysisData := currentAnalysisData page;
       resultsSummary_textContent := resultsSummary_textContent page;
       propertiesGrid := propertiesGrid page;
       resultsContainer_display := display |}).

(** The [forEach] of [displayResults]: a card is appended as soon as it is
    built. *)
Fixpoint append_cards (items : list Json) (index : nat) : M unit :=
  match items with
  | [] => ret tt
  | opportunity :: rest =>
      card <- lift (createPropertyCard opportunity (index + 1)) ;;
      set_grid (fun grid => (grid ++ [card])%list) ;;;
      append_cards rest (S index)
  end.

(** [displayResults(results)] on whatever value it is given. *)
Definition displayResults (results : Json) : M unit :=
  set_held results ;;;
  summary <- lift (read (Some results) "summary") ;;
  found <- lift (read summary "total_properties_found") ;;
  analyzed <- lift (read summary "properties_analyzed") ;;
  avg_roi <- lift (read summary "avg_roi") ;;
  top_roi <- lift (read summary "top_opportunity_roi") ;;
  set_summary
    ("Found " ++ text found ++ " properties, analyzed " ++ text analyzed ++
     " opportunities. " ++ "Average ROI: " ++ text avg_roi ++
     "%. Top opportunity: " ++ text top_roi ++ "% ROI.") ;;;
  set_grid (fun _ => []) ;;;
  opportunities <- lift (read (Some results) "opportunities") ;;
  match opportunities with
  | Some (JArray items) => append_cards items 0
  | _ => throw (TypeError "forEach")
  end ;;;
  set_display "block" ;;;
  perform (ScrollIntoView "resultsContainer").

(** [displayResults] returns on the value. *)
Definition renders (results : Json) : Prop :=
  forall page : Page, result_of (displayResults results page) = Return tt.

(** The caller of [performAnalysis] gets a result it can render. *)
Definition receives_renderable (net : Network) (formData : FormData)
    : Prop :=
  exists results,
    result_of (performAnalysis net formData loaded) = Return results /\
    renders results.

End Rendering.

(** What the page shows of a result of the [/analyze] shape: the summary
    line and the cards [Landing.displayResults] writes for it. *)
Definition shown {rt : Runtime} (data : AnalysisData) : Page :=
  {| currentAnalysisData := Some (to_Json data);
     resultsSummary_textContent :=
       Landing.resultsSummary_textContent
         (state_of (Landing.displayResults data Landing.initial));
     propertiesGrid :=
       Landing.propertiesGrid
         (state_of (Landing.displayResults data Landing.initial));
     resultsContainer_display := "block" |}.

(** A network whose [/analyze] answers 200 with the body [{}]. *)
Definition answers_empty_object : Network :=
  {| get_health := NetworkError; get_root := NetworkError;
     post_analyze := fun _ => Response 200 (Some (JObject [])) |}.

(** Coercions for the worked examples, whose values are numbers where
    numbers are due. *)
Definition example_coercions : Coercions :=
  {| compound_toLocaleString := fun _ => "[object Object]";
     coerced_toFixed := fun _ _ _ => "NaN";
     coerced_positive := fun _ => false |}.

End Wire.

(* ===================================================================== *)
(** ** The map page script [sgiach-mapping.js] *)
(* ===================================================================== *)

Module Mapping.
Import JS Handler.
Local Open Scope string_scope.

Record Infrastructure : Type := mkInfrastructure {
  total_cost_min : Q;
  total_cost_max : Q;
  development_timeline : string
}.

(** [property_data] of an analysis, with the fields the two functions
    below read or pass on; [address] may be absent. *)
Record PropertyData : Type := mkPropertyData {
  address : option string;
  infrastructure : Infrastructure;
  amenity_score : Q;
  professional_validation_required : bool
}.

Record AnalysisResult : Type := mkAnalysisResult {
  property_data : PropertyData;
  professional_summary : string
}.

(** The body of [/professional/validation-request] as the script reads
    it: [result.validation_request.request_id]. *)
Record ValidationRequest : Type := mkValidationRequest {
  request_id : option string
}.

Record ValidationResponse : Type := mkValidationResponse {
  validation_request : option ValidationRequest
}.

Record ReportData : Type := mkReportData {
  report_property : option string;
  analysis_date : string;
  infrastructure_summary : Infrastructure;
  report_professional_summary : string
}.

(** [window.sgiachMap], as far as these functions use it. *)
Record State : Type := mkState {
  currentProperty : option AnalysisResult
}.

Inductive effect : Type :=
| Fetch (method url : string) (validation_type : string)
    (body : PropertyData)
| Alert (text : string)
| ConsoleError (text : string) (error : Error)
| DownloadReport (report : ReportData) (filename : string).

Definition M : Type -> Type := Handler.M State effect.

(** [exportAnalysisReport()]; [now] is [new Date().toISOString()] and
    [now_ms] is [Date.now()]. *)
Definition exportAnalysisReport (now : string) (now_ms : Z) : M unit :=
  st <- get ;;
  match currentProperty st with
  | None => ret tt
  | Some current =>
      let reportData :=
        {| report_property := address (property_data current);
           analysis_date := now;
           infrastructure_summary := infrastructure (property_data current);
           report_professional_summary := professional_summary current |} in
      perform (DownloadReport reportData
                 ("sgiach-analysis-" ++ Z_toString now_ms ++ ".json"))
  end.

(** [window.sgiachMap.currentProperty.property_data] *)
Definition current_property_data : M PropertyData :=
  st <- get ;;
  match currentProperty st with
  | None => throw (TypeError "property_data")
  | Some current => ret (property_data current)
  end.

(** [`${v}`] of a property that may be missing. *)
Definition text_of (v : option string) : string :=
  match v with
  | Some s => s
  | None => "undefined"
  end.

(** [requestProfessionalValidation()], given what the request meets. *)
Definition requestProfessionalValidation
    (net : FetchResult ValidationResponse) : M unit :=
  try_catch
    (body <- current_property_data ;;
     perform (Fetch "POST" "/professional/validation-request"
                "comprehensive" body) ;;;
     response <- match net with
                 | NetworkError => throw FetchFailed
                 | Response status parsed => ret (status, parsed)
                 end ;;
     result <- json response ;;
     match validation_request result with
     | None => throw (TypeError "request_id")
     | Some request =>
         perform (Alert ("Professional validation requested! Request ID: " ++
                         text_of (request_id request)))
     end)
    (fun error => perform (ConsoleError "Validation request failed:" error)).

(** The call fails: no response, a body that is not JSON, or a body without
    [validation_request]. *)
Definition request_failed (net : FetchResult ValidationResponse) : Prop :=
  match net with
  | NetworkError => True
  | Response _ None => True
  | Response _ (Some result) => validation_request result = None
  end.

(** The user is shown an alert. *)
Definition alerts (effects : list effect) : Prop :=
  exists text, In (Alert text) effects.


Definition sample_property : AnalysisResult :=
  {| property_data :=
       {| address := Some "Analysis Property";
          infrastructure :=
            {| total_cost_min := 150000; total_cost_max := 280000;
               development_timeline := "12-18 months" |};
          amenity_score := 72 # 10;
          professional_validation_required := true |};
     professional_summary := "Professional review recommended" |}.

End Mapping.

(* ===================================================================== *)
(** ** The placement page: what its states have in common *)
(* ===================================================================== *)

Module Plan.
Import JS Placement.

(** The div [placeBuilding] creates for a record. *)
Definition div_of (b : PlacedBuilding) : BuildingDiv :=
  {| node := element b;
     className := "placed-building";
     style_left := x b; style_top := y b;
     style_width := width b; style_height := height b;
     textContent := capitalise (type b);
     dataset_type := type b |}.

(** The grid shows exactly the recorded buildings, in the same order. *)
Definition in_step (st : State) : Prop :=
  gridChildren st = map div_of (placedBuildings st).

(** A record lies inside the buildable rectangle of a layout. *)
Definition fits (lay : Layout) (b : PlacedBuilding) : Prop :=
  le (buildableX lay) (x b) /\
  le (buildableY lay) (y b) /\
  le (add (x b) (width b)) (add (buildableX lay) (buildableWidth lay)) /\
  le (add (y b) (height b)) (add (buildableY lay) (buildableHeight lay)).

(** A finite number. *)
Definition finite (n : number) : Prop :=
  match n with
  | Num _ => True
  | NaN => False
  end.

(** The states reached while the page keeps one layout. *)
Inductive reachable_on (lay : Layout) : State -> Prop :=
| on_initial : reachable_on lay initial
| on_dragstart item st :
    reachable_on lay st -> reachable_on lay (fst (dragstart item st))
| on_drop e st :
    reachable_on lay st -> reachable_on lay (fst (drop lay e st))
| on_dblclick this st :
    reachable_on lay st -> reachable_on lay (fst (dblclick this st))
| on_export now st :
    reachable_on lay st -> reachable_on lay (fst (exportDevelopment now st)).

End Plan.

(* ===================================================================== *)
(** ** The placement page: layer and tool buttons *)
(* ===================================================================== *)

Module Toolbar.
Import JS.
Local Open Scope string_scope.

(** A [.toggle-btn]: its [data-layer] and [data-tool] attributes, absent
    when [None], and whether its class list holds [active]. *)
Record Button : Type := mkButton {
  data_layer : option string;
  data_tool : option string;
  active : bool
}.

Inductive effect : Type :=
| SetDisplay (selector value : string)
    (* style.display of every element matching the selector *)
| ConsoleLog (text : string).

(** [if (this.dataset.x)]: present and not empty. *)
Definition truthy (v : option string) : bool :=
  match v with
  | Some s => negb (String.eqb s "")
  | None => false
  end.

(** The element matches [[data-x]]. *)
Definition has_attribute (v : option string) : bool :=
  match v with
  | Some _ => true
  | None => false
  end.

Definition text_of (v : option string) : string :=
  match v with
  | Some s => s
  | None => ""
  end.

Definition set_active (value : bool) (b : Button) : Button :=
  {| data_layer := data_layer b; data_tool := data_tool b; active := value |}.

Fixpoint update_at (index : nat) (f : Button -> Button) (l : list Button)
    : list Button :=
  match l, index with
  | [], _ => []
  | b :: rest, O => f b :: rest
  | b :: rest, S i => b :: update_at i f rest
  end.

(** [toggleLayer(layer, active)]; layer names are CSS identifiers, as on
    the page. *)
Definition toggleLayer (layer : string) (active : bool) : list effect :=
  [ SetDisplay ("." ++ layer) (if active then "block" else "none");
    ConsoleLog ("Layer " ++ layer ++ ": " ++
                (if active then "Enabled" else "Disabled")) ].

(** [activateTool(tool)] *)
Definition activateTool (tool : string) : list effect :=
  [ConsoleLog ("Activated tool: " ++ tool)].

(** The [click] listener of the button at [index] among the buttons of the
    page, in document order. *)
Definition click (index : nat) (buttons : list Button)
    : list Button * list effect :=
  match nth_error buttons index with
  | None => (buttons, [])
  | Some this =>
      if truthy (data_layer this) then
        let toggled := update_at index (set_active (negb (active this)))
                         buttons in
        (toggled,
         toggleLayer (text_of (data_layer this)) (negb (active this)))
      else if truthy (data_tool this) then
        let cleared :=
          map (fun b => if has_attribute (data_tool b)
                        then set_active false b else b) buttons in
        (update_at index (set_active true) cleared,
         activateTool (text_of (data_tool this)))
      else (buttons, [])
  end.

(** The buttons of the page as loaded. *)
Definition page_buttons : list Button :=
  [ mkButton (Some "boundaries") None true;
    mkButton (Some "utilities") None true;
    mkButton (Some "setbacks") None true;
    mkButton (Some "constraints") None false;
    mkButton (Some "drainage") None false;
    mkButton None (Some "measure") false;
    mkButton None (Some "grade") false;
    mkButton None (Some "shadow") false ].

(** The states a run of clicks leads to. *)
Inductive reachable : list Button -> Prop :=
| reachable_loaded : reachable page_buttons
| reachable_click index buttons :
    reachable buttons -> reachable (fst (click index buttons)).

(** The tools shown as active. *)
Definition active_tools (buttons : list Button) : list Button :=
  filter (fun b => has_attribute (data_tool b) && active b) buttons.

End Toolbar.

(* ===================================================================== *)
(** ** The landing page: form submission and the quick test *)
(* ===================================================================== *)

Module Session.
Import JS Handler Landing.
Local Open Scope string_scope.

(** The results section together with the submit button and the
    spinner. *)
Record Form : Type := mkForm {
  page : Wire.Page;
  analyzeBtn_disabled : bool;
  analyzeBtn_textContent : string;
  loadingSpinner_display : string
}.

Inductive effect : Type :=
| PreventDefault
| OnPage (e : Landing.effect)
| ErrorShown (message : string).
    (* showError: a div.error-message kept for 5000 ms *)

Definition M : Type -> Type := Handler.M Form effect.

(** A handler of the page, run from the form. *)
Definition on_page {A : Type} (m : Wire.M A) : M A :=
  fun form =>
    let '(r, st, effects) := m (page form) in
    (r,
     {| page := st;
        analyzeBtn_disabled := analyzeBtn_disabled form;
        analyzeBtn_textContent := analyzeBtn_textContent form;
        loadingSpinner_display := loadingSpinner_display form |},
     map OnPage effects).

(** [try { m } finally { cleanup }] *)
Definition try_finally {A : Type} (m : M A) (cleanup : M unit) : M A :=
  fun form =>
    let '(r, form1, effects1) := m form in
    match cleanup form1 with
    | (Return _, form2, effects2) => (r, form2, (effects1 ++ effects2)%list)
    | (Throw e, form2, effects2) =>
        (Throw e, form2, (effects1 ++ effects2)%list)
    end.

Definition set_button (disabled : bool) (text spinner : string) : M unit :=
  modify (fun form =>
    {| page := page form;
       analyzeBtn_disabled := disabled;
       analyzeBtn_textContent := text;
       loadingSpinner_display := spinner |}).

Section Handlers.
Context {rt : Runtime} {co : Wire.Coercions}.

(** [error.message]; [browser_text] words the errors the browser raises. *)
Variable browser_text : Error -> string.

Definition error_message (error : Error) : string :=
  match error with
  | ErrorMessage message => message
  | _ => browser_text error
  end.

(** [showError(message)] *)
Definition showError (message : string) : M unit :=
  perform (ErrorShown message).

(** [handleAnalysisSubmit(e)]; [formData] is what [getFormData()] reads. *)
Definition handleAnalysisSubmit (net : Network) (formData : FormData)
    : M unit :=
  perform PreventDefault ;;;
  set_button true "Analyzing..." "block" ;;;
  try_finally
    (try_catch
       (results <- on_page (performAnalysis net formData) ;;
        on_page (Wire.displayResults results))
       (fun error => showError ("Analysis failed: " ++ error_message error)))
    (set_button false "Analyze Development Opportunities" "none").

(** Whether a value counts as true. *)
Definition truthy (v : Wire.value) : bool :=
  match v with
  | None => false
  | Some JNull => false
  | Some (JBool b) => b
  | Some (JNumber q) => negb (Qeq_bool q 0)
  | Some (JString s) => negb (String.eqb s "")
  | Some _ => true
  end.






(** [exportPDF()] *)
Definition exportPDF : Wire.M unit :=
  showMessage "PDF report generation coming soon!" "info".

End Handlers.

(** The requests among the effects of a page handler. *)
Definition requests (effects : list Landing.effect) : list Landing.effect :=
  filter (fun e => match e with Fetch _ _ => true | _ => false end) effects.

(** The files among the effects of a page handler. *)
Definition downloads (effects : list Landing.effect) : list Landing.effect :=
  filter (fun e => match e with DownloadFile _ _ _ => true | _ => false end)
    effects.

End Session.

(* ===================================================================== *)
(** ** The map page: markers *)
(* ===================================================================== *)

Module MapView.
Import JS Handler Mapping.
Local Open Scope string_scope.

Record LatLng : Type := mkLatLng { lat : Q; lng : Q }.

Record Utility : Type := mkUtility {
  utility_type : string;
  utility_coordinates : LatLng;
  utility_distance : string;
  connection_cost : string;
  utility_timeline : string;
  utility_status : string;
  details : string
}.

Record Amenity : Type := mkAmenity {
  amenity_type : string;
  name : string;
  amenity_coordinates : LatLng;
  amenity_distance : string;
  impact : string;
  validation : string;
  amenity_status : string
}.

(** A Leaflet marker with its [divIcon] and popup. *)
Record Marker : Type := mkMarker {
  position : LatLng;
  background : string;
  glyph : string;
  icon_className : string;
  popup_title : string;
  popup_lines : list (string * string);
  popup_note : option string
}.

(** What [#analysis-panel] holds: the markup of the page as loaded, or
    the summary written by [updateAnalysisPanel]. *)
Record Summary : Type := mkSummary {
  cost_line : string;
  timeline_line : string;
  score_line : string;
  validation_line : string;
  validation_button : bool
}.

Inductive Panel : Type :=
| AsLoaded
| Summarised (summary : Summary).

Record View : Type := mkView {
  object : Mapping.State;
  utilityMarkers : list Marker;
  amenityMarkers : list Marker;
  panel : Panel
}.

Inductive effect : Type :=
| AddToMap (marker : Marker).

Definition M : Type -> Type := Handler.M View effect.

Section Script.
Context {rt : Runtime}.

(** How the browser prints a member inherited from [Object.prototype]. *)
Variable inherited_text : string -> string.

Definition inherited (key : string) : bool :=
  existsb (String.eqb key)
    [ "constructor"; "hasOwnProperty"; "isPrototypeOf";
      "propertyIsEnumerable"; "toLocaleString"; "toString"; "valueOf";
      "__proto__"; "__defineGetter__"; "__defineSetter__";
      "__lookupGetter__"; "__lookupSetter__" ].

(** [`${table[key] || fallback}`] for an object literal of non-empty
    strings. *)
Definition lookup_or (table : list (string * string)) (key fallback : string)
    : string :=
  match find (fun entry => String.eqb (fst entry) key) table with
  | Some entry => snd entry
  | None => if inherited key then inherited_text key else fallback
  end.

(** [getStatusColor(status)] *)
Definition getStatusColor (status : string) : string :=
  lookup_or
    [ ("available", "#27ae60"); ("excellent", "#27ae60");
      ("good", "#27ae60"); ("extension-required", "#f39c12");
      ("adequate", "#f39c12"); ("limited", "#f39c12");
      ("major-infrastructure", "#e74c3c"); ("private-system", "#e74c3c");
      ("pending", "#95a5a6") ]
    status "#95a5a6".

Definition utilityIcons : list (string * string) :=
  [ ("water", "💧"); ("sewer", "🚰"); ("electrical", "⚡");
    ("gas", "🔥"); ("internet", "📶") ].


(** [s.replace(from, to)] with one-character strings: the first
    occurrence only. *)
Fixpoint replace_first (from to : ascii) (s : string) : string :=
  match s with
  | String c rest =>
      if Ascii.eqb c from then String to rest
      else String c (replace_first from to rest)
  | EmptyString => EmptyString
  end.

Definition utility_marker (utility : Utility) : Marker :=
  {| position := utility_coordinates utility;
     background := getStatusColor (utility_status utility);
     glyph := lookup_or utilityIcons (utility_type utility) "🔧";
     icon_className := "utility-marker";
     popup_title := toUpperCase (utility_type utility) ++ " Service";
     popup_lines :=
       [ ("Distance:", utility_distance utility);
         ("Cost:", connection_cost utility);
         ("Timeline:", utility_timeline utility);
         ("Status:", replace_first "-" " " (utility_status utility)) ];
     popup_note := Some (details utility) |}.


Definition push_utility (marker : Marker) : M unit :=
  modify (fun view =>
    {| object := object view;
       utilityMarkers := utilityMarkers view ++ [marker];
       amenityMarkers := amenityMarkers view;
       panel := panel view |}).


(** [addUtilityMarkers(utilities)] *)
Fixpoint addUtilityMarkers (utilities : list Utility) : M unit :=
  match utilities with
  | [] => ret tt
  | utility :: rest =>
      perform (AddToMap (utility_marker utility)) ;;;
      push_utility (utility_marker utility) ;;;
      addUtilityMarkers rest
  end.


End Script.

(** The map object before any analysis. *)
Definition constructed : View :=
  {| object := {| currentProperty := None |};
     utilityMarkers := []; amenityMarkers := []; panel := AsLoaded |}.

(** One water connection and one park. *)
Definition sample_utilities : list Utility :=
  [ mkUtility "water" (mkLatLng (535460 # 10000) (-1134900 # 10000))
      "45m" "$15,000" "2-3 months" "extension-required"
      "Municipal main on 82 Avenue" ].

Definition sample_amenities : list Amenity :=
  [ mkAmenity "park" "Mill Creek Ravine"
      (mkLatLng (535400 # 10000) (-1134700 # 10000))
      "600m" "High" "Pending" "good" ].

End MapView.


(* ===================================================================== *)
(** ** Grid snapping and placement *)
(* ===================================================================== *)

Section PlacementFacts.
Import JS Placement.

Lemma round_near (q : Q) :
  inject_Z (Qfloor (q + (1 # 2))) <= q + (1 # 2) /\
  q - (1 # 2) < inject_Z (Qfloor (q + (1 # 2))).
Proof.
  split.
  - apply Qfloor_le.
  - pose proof (Qlt_floor (q + (1 # 2))) as H.
    rewrite inject_Z_plus in H. change (inject_Z 1) with 1 in H. lra.
Qed.

(** One axis: the snap of a raw coordinate is an integer multiple of 30
    at most 30/2 away from it. *)
Lemma snap_near (raw : Q) :
  exists z : Z,
    snap (Num raw) = Num (inject_Z z) /\
    (z mod 30 = 0)%Z /\
    Qabs (inject_Z z - raw) <= 30 / 2.
Proof.
  exists (Qfloor (raw / 30 + (1 # 2)) * 30)%Z.
  split; [reflexivity|]. split; [apply Z.mod_mul; lia|].
  destruct (round_near (raw / 30)) as [Hle Hlt].
  rewrite inject_Z_mult. change (inject_Z 30) with 30.
  assert (Hraw : raw == 30 * (raw / 30)) by field.
  set (k := inject_Z (Qfloor (raw / 30 + (1 # 2)))) in *. clearbody k.
  set (q := raw / 30) in *. clearbody q.
  assert (Hhalf : 30 / 2 == 15) by reflexivity.
  apply Qabs_Qle_condition. rewrite Hraw, Hhalf. split; lra.
Qed.

(** C2. For every drop, with raw coordinates [x = clientX - rect.left] and
    [y = clientY - rect.top] and the grid unit 30, the snapped coordinate
    [Math.round(x / 30) * 30] is an integer multiple of 30 at most 30/2 from
    [x]; the same holds for [y], each axis being snapped on its own. *)
Theorem snap_multiple_and_near (lay : Layout) (e : DragEvent) :
  (exists zx : Z,
     snappedX lay e = Num (inject_Z zx) /\
     (zx mod 30 = 0)%Z /\
     Qabs (inject_Z zx - (clientX e - rect_left (gridRect lay))) <= 30 / 2) /\
  (exists zy : Z,
     snappedY lay e = Num (inject_Z zy) /\
     (zy mod 30 = 0)%Z /\
     Qabs (inject_Z zy - (clientY e - rect_top (gridRect lay))) <= 30 / 2).
Proof.
  split.
  - exact (snap_near (clientX e - rect_left (gridRect lay))).
  - exact (snap_near (clientY e - rect_top (gridRect lay))).
Qed.

(** Raw 85 snaps to 90, raw 95 to 90, and the half-way point 45 goes up. *)
Example snap_samples :
  map snap [Num 85; Num 95; Num 45; Num (449 # 10); Num (-15)] =
  [Num 90; Num 90; Num 60; Num 30; Num 0].
Proof. reflexivity. Qed.

(** [parseInt] and [split] on palette sizes and on malformed ones. *)
Example parseInt_samples :
  map parseInt_string ["120"; "80px"; " -42"; "0x1F"; "abc"; ""]%string =
  [Num 120; Num 80; Num (-42); Num 31; NaN; NaN].
Proof. reflexivity. Qed.

Example split_samples :
  map (split "x") ["120x80"; "120"; ""]%string =
  [["120"; "80"]; ["120"]; [""]]%string.
Proof. reflexivity. Qed.

Lemma lte_le (a b : number) : lte a b = true <-> le a b.
Proof.
  destruct a, b; simpl; try (split; [discriminate | contradiction]).
  apply Qle_bool_iff.
Qed.

Lemma withinBuildable_inside (lay : Layout) (e : DragEvent) (w h : number) :
  withinBuildable (snappedX lay e) (snappedY lay e) w h
    (buildableX lay) (buildableY lay) (buildableWidth lay)
    (buildableHeight lay) = true <->
  inside_buildable lay e w h.
Proof.
  unfold withinBuildable, inside_buildable, gte.
  rewrite !andb_true_iff, !lte_le. tauto.
Qed.

Lemma app_one_neq {A : Type} (l : list A) (a : A) : l <> l ++ [a].
Proof.
  intros H. apply (f_equal (@List.length A)) in H.
  rewrite length_app in H. simpl in H. lia.
Qed.

(** The handler's two branches, once an entry is being dragged. *)
Lemma drop_dragged (lay : Layout) (e : DragEvent) (st : State)
    (item : Element) :
  draggedElement st = Some item ->
  (inside_buildable lay e (item_width item) (item_height item) /\
   placedBuildings (fst (drop lay e st)) =
     placedBuildings st ++ [placed_record lay e item st] /\
   snd (drop lay e st) =
     [LogPlaced (data_building item) (snappedX lay e) (snappedY lay e)]) \/
  (~ inside_buildable lay e (item_width item) (item_height item) /\
   placedBuildings (fst (drop lay e st)) = placedBuildings st /\
   snd (drop lay e st) = [rejection]).
Proof.
  intros Hdrag. unfold drop. rewrite Hdrag.
  pose proof (withinBuildable_inside lay e (item_width item)
                (item_height item)) as Hspec.
  unfold snappedX, snappedY, item_width, item_height, buildableX,
    buildableY, buildableWidth, buildableHeight in Hspec.
  destruct (withinBuildable _ _ _ _ _ _ _ _) eqn:Hin.
  - left. split; [apply Hspec; reflexivity|]. split; reflexivity.
  - right. split.
    + intros Hc. apply Hspec in Hc. discriminate.
    + split; reflexivity.
Qed.

(** C1 (amended). While a palette entry is being dragged, a drop appends a
    record (snapped corner, the entry's width and height, its type) if and
    only if the snapped corner and footprint lie inside the buildable
    rectangle; otherwise the rejection warning is the only effect and the
    collection is unchanged.  A drop with nothing dragged is ignored: no
    record and no warning. *)
Theorem drop_places_iff_inside (lay : Layout) (e : DragEvent) (st : State) :
  match draggedElement st with
  | Some item =>
      let inside :=
        inside_buildable lay e (item_width item) (item_height item) in
      (placedBuildings (fst (drop lay e st)) =
         placedBuildings st ++ [placed_record lay e item st] <-> inside) /\
      ((exists b, placedBuildings (fst (drop lay e st)) =
                  placedBuildings st ++ [b]) <-> inside) /\
      (inside -> ~ In rejection (snd (drop lay e st))) /\
      (~ inside ->
       snd (drop lay e st) = [rejection] /\
       placedBuildings (fst (drop lay e st)) = placedBuildings st)
  | None => drop lay e st = (st, [])
  end.
Proof.
  destruct (draggedElement st) as [item|] eqn:Hdrag.
  - destruct (drop_dragged lay e st item Hdrag)
      as [(Hin & Hp & He) | (Hout & Hp & He)]; cbv zeta.
    + rewrite Hp, He. split; [tauto|]. split; [|split].
      * split; [tauto|]. intros _. now exists (placed_record lay e item st).
      * intros _ [H | []]. discriminate H.
      * tauto.
    + rewrite Hp, He. split; [|split; [|split]].
      * split; [|tauto]. intros H. now apply app_one_neq in H.
      * split; [|tauto]. intros [b H]. now apply app_one_neq in H.
      * tauto.
      * tauto.
  - unfold drop. now rewrite Hdrag.
Qed.

(** The scenario of the specification: a 120x80 single-family entry dropped
    at raw point (85, 95) of a 600x500 grid whose buildable area is inset
    by 80 lands at (90, 90). *)
Example drop_single_family :
  let st := fst (dragstart (mkElement "single-family" "120x80") initial) in
  placedBuildings (fst (drop sample_layout (mkDragEvent 85 95) st)) =
    [ {| element := 0%nat; x := Num 90; y := Num 90;
         width := Num 120; height := Num 80; type := "single-family" |} ].
Proof. reflexivity. Qed.

(** An office (150x150) dropped near the right edge overlaps the boundary
    and is rejected; so is an entry whose size has no height. *)
Example drop_office_rejected :
  let st := fst (dragstart (mkElement "office" "150x150") initial) in
  drop sample_layout (mkDragEvent 400 100) st = (initial, [rejection]).
Proof. reflexivity. Qed.

Example drop_unsized_rejected :
  let st := fst (dragstart (mkElement "shed" "120") initial) in
  drop sample_layout (mkDragEvent 85 95) st = (initial, [rejection]).
Proof. reflexivity. Qed.

(** C1, counterexample.  With nothing dragged, a drop at the grid origin
    fails the condition for every footprint (the snapped corner 0 is left of
    the buildable area), yet the handler shows no warning. *)
Lemma drop_without_drag_shows_no_warning :
  ~ every_drop_places_iff_inside sample_layout (mkDragEvent 0 0) initial.
Proof.
  intros H.
  destruct (H (Num 120) (Num 80)) as [_ Hwarn].
  - intros item Hitem. discriminate Hitem.
  - destruct Hwarn as [Hin _].
    + intros (Hx & _). vm_compute in Hx. now apply Hx.
    + simpl in Hin. exact Hin.
Qed.

(** *** The placed-buildings collection *)

Lemma snap_on_grid (raw : Q) : grid_multiple (snap (Num raw)).
Proof.
  simpl. exists (Qfloor (raw / 30 + (1 # 2))).
  rewrite inject_Z_mult. reflexivity.
Qed.

Lemma findIndex_split {A : Type} (p : A -> bool) (l : list A) :
  match findIndex p l with
  | Some i =>
      exists l1 b l2,
        l = l1 ++ b :: l2 /\ List.length l1 = i /\ p b = true /\
        Forall (fun a => p a = false) l1 /\ splice1 i l = l1 ++ l2
  | None => Forall (fun a => p a = false) l
  end.
Proof.
  induction l as [|a l IH]; simpl.
  - constructor.
  - destruct (p a) eqn:Hpa.
    + exists [], a, l. repeat split; auto.
    + destruct (findIndex p l) as [i|].
      * destruct IH as (l1 & b & l2 & -> & Hlen & Hpb & Hl1 & Hsp).
        exists (a :: l1), b, l2. repeat split; simpl; auto.
        unfold splice1 in *. simpl. f_equal. exact Hsp.
      * constructor; assumption.
Qed.

Lemma splice1_In {A : Type} (i : nat) (l : list A) (a : A) :
  In a (splice1 i l) -> In a l.
Proof.
  revert i. induction l as [|a' l IH]; intros i H.
  - destruct i; exact H.
  - destruct i as [|i]; [now right|].
    change (In a (a' :: splice1 i l)) in H.
    destruct H as [H | H]; [now left | right; eauto].
Qed.

Lemma splice1_Forall {A : Type} (P : A -> Prop) (i : nat) (l : list A) :
  Forall P l -> Forall P (splice1 i l).
Proof.
  rewrite !Forall_forall. intros H a Hin. eauto using splice1_In.
Qed.

Lemma splice1_NoDup {A B : Type} (f : A -> B) (i : nat) (l : list A) :
  NoDup (map f l) -> NoDup (map f (splice1 i l)).
Proof.
  revert i. induction l as [|a l IH]; intros i H.
  - destruct i; exact H.
  - inversion H as [|? ? Hnotin Hnd]; subst.
    destruct i as [|i]; [exact Hnd|].
    change (NoDup (f a :: map f (splice1 i l))). constructor.
    + intros Hin. apply Hnotin.
      rewrite in_map_iff in *. destruct Hin as (b & Hb & Hin).
      exists b. eauto using splice1_In.
    + now apply IH.
Qed.

Lemma after_dblclick (this : nat) (st : State) :
  placedBuildings (fst (dblclick this st)) = placedBuildings st \/
  exists i, placedBuildings (fst (dblclick this st)) =
            splice1 i (placedBuildings st).
Proof.
  unfold dblclick; simpl.
  destruct (findIndex _ _) as [i|]; [right; now exists i | now left].
Qed.

Lemma after_drop (lay : Layout) (e : DragEvent) (st : State) :
  (placedBuildings (fst (drop lay e st)) = placedBuildings st /\
   next_node (fst (drop lay e st)) = next_node st) \/
  (exists item,
     placedBuildings (fst (drop lay e st)) =
       placedBuildings st ++ [placed_record lay e item st] /\
     next_node (fst (drop lay e st)) = S (next_node st)).
Proof.
  unfold drop. destruct (draggedElement st) as [item|]; [|now left].
  destruct (withinBuildable _ _ _ _ _ _ _ _).
  - right. exists item. split; reflexivity.
  - left. split; reflexivity.
Qed.

Lemma reachable_on_grid (st : State) :
  reachable st -> Forall on_grid (placedBuildings st).
Proof.
  induction 1 as [|a st Hr IH]; [constructor|].
  destruct a as [item | lay e | this | now]; unfold handle;
    try exact IH.
  - destruct (after_drop lay e st) as [[-> _] | (item & -> & _)]; [exact IH|].
    apply Forall_app. split; [exact IH|]. constructor; [|constructor].
    split; apply snap_on_grid.
  - destruct (after_dblclick this st) as [-> | [i ->]]; [exact IH|].
    now apply splice1_Forall.
Qed.

Lemma reachable_nodes_distinct (st : State) :
  reachable st -> nodes_distinct st.
Proof.
  induction 1 as [|a st Hr [IHlt IHnd]].
  - split; constructor.
  - destruct a as [item | lay e | this | now]; unfold handle.
    + split; assumption.
    + unfold nodes_distinct.
      destruct (after_drop lay e st) as [[-> ->] | (item & -> & ->)];
        [split; assumption|].
      split.
      * apply Forall_app. split.
        -- eapply Forall_impl; [|exact IHlt]. simpl. intros; lia.
        -- constructor; [simpl; lia | constructor].
      * rewrite map_app. simpl.
        apply NoDup_app; [exact IHnd | repeat constructor; intros [] |].
        intros n Hin [<- | []].
        rewrite in_map_iff in Hin. destruct Hin as (b & Hb & Hin).
        rewrite Forall_forall in IHlt. specialize (IHlt b Hin). lia.
    + unfold nodes_distinct.
      replace (next_node (fst (dblclick this st))) with (next_node st)
        by reflexivity.
      destruct (after_dblclick this st) as [-> | [i ->]];
        [split; assumption|].
      split; [now apply splice1_Forall | now apply splice1_NoDup].
    + split; assumption.
Qed.

(** C9. In every state the page can reach, each record of
    [placedBuildings] has [x] and [y] that are integer multiples of 30; and a
    double click on a placed div either finds no record (the collection is
    unchanged) or removes exactly the record of that div, the records before
    and after it staying as they were, in order, none of them belonging to
    the removed div. *)
Theorem placed_on_grid_and_removal (st : State) (Hr : reachable st) :
  Forall on_grid (placedBuildings st) /\
  forall this : nat,
    (Forall (fun b => element b <> this) (placedBuildings st) /\
     placedBuildings (fst (dblclick this st)) = placedBuildings st) \/
    (exists l1 b l2,
       placedBuildings st = l1 ++ b :: l2 /\ element b = this /\
       placedBuildings (fst (dblclick this st)) = l1 ++ l2 /\
       Forall (fun b' => element b' <> this) (l1 ++ l2)).
Proof.
  split; [now apply reachable_on_grid|]. intros this.
  destruct (reachable_nodes_distinct st Hr) as [_ Hnd].
  pose proof (findIndex_split (fun b => Nat.eqb (element b) this)
                (placedBuildings st)) as Hfind.
  unfold dblclick; simpl.
  destruct (findIndex _ _) as [i|].
  - right. destruct Hfind as (l1 & b & l2 & Heq & _ & Hb & _ & Hsp).
    exists l1, b, l2. apply Nat.eqb_eq in Hb.
    repeat split; auto.
    rewrite Heq, map_app in Hnd. simpl in Hnd.
    apply NoDup_remove_2 in Hnd. rewrite <- map_app in Hnd.
    apply Forall_forall. intros b' Hin Heq'. apply Hnd.
    apply in_map_iff. exists b'. split; [congruence | exact Hin].
  - left. split; [|reflexivity].
    eapply Forall_impl; [|exact Hfind]. simpl.
    intros b Hb. now apply Nat.eqb_neq.
Qed.

(** The sample state holds the house at (90, 90) and the garden at
    (270, 210). *)
Example sample_state_records :
  map tuple_of (placedBuildings sample_state) =
    [ ("single-family"%string, Num 90, Num 90, Num 120, Num 80);
      ("garden"%string, Num 270, Num 210, Num 80, Num 80) ].
Proof. reflexivity. Qed.

(** The invariant and the removal, at the sample state. *)
Lemma placed_on_grid_and_removal_witness :
  reachable sample_state /\
  (Forall on_grid (placedBuildings sample_state) /\
   forall this : nat,
     (Forall (fun b => element b <> this) (placedBuildings sample_state) /\
      placedBuildings (fst (dblclick this sample_state)) =
        placedBuildings sample_state) \/
     (exists l1 b l2,
        placedBuildings sample_state = l1 ++ b :: l2 /\ element b = this /\
        placedBuildings (fst (dblclick this sample_state)) = l1 ++ l2 /\
        Forall (fun b' => element b' <> this) (l1 ++ l2))).
Proof.
  assert (Hr : reachable sample_state)
    by (unfold sample_state; repeat apply reachable_step; constructor).
  split; [exact Hr|].
  exact (placed_on_grid_and_removal sample_state Hr).
Defined.

(** *** The development-plan export *)

(** C8 (amended). [exportDevelopment] builds, from the whole collection and
    in its order, one entry per record carrying the same type, x, y, width
    and height, together with the timestamp; it logs that object and then
    shows an alert that reports the number of buildings placed.  The state
    is unchanged and no file is produced. *)
Theorem exportDevelopment_keeps_tuples (now : string) (st : State) :
  fst (exportDevelopment now st) = st /\
  snd (exportDevelopment now st) =
    [ LogExport (developmentData now st);
      Alert ("Development Plan exported successfully!" ++ LF ++ LF ++
             "Buildings placed: " ++
             nat_toString (List.length (placedBuildings st)) ++ LF ++ LF ++
             "This would normally send the plan to your Sgiach platform for cost analysis and feasibility assessment.")%string ] /\
  map tuple_of_exported (dev_placedBuildings (developmentData now st)) =
    map tuple_of (placedBuildings st) /\
  dev_timestamp (developmentData now st) = now /\
  ~ produces_file (snd (exportDevelopment now st)).
Proof.
  split; [reflexivity|]. split; [reflexivity|]. split; [|split].
  - unfold developmentData; simpl. rewrite map_map. reflexivity.
  - reflexivity.
  - intros (content & filename & Hin). simpl in Hin.
    destruct Hin as [H | [H | []]]; discriminate H.
Qed.

(** With the two sample buildings placed the alert counts two, and none on
    the page as loaded. *)
Example exportDevelopment_counts :
  snd (exportDevelopment example_clock sample_state) =
    [ LogExport (developmentData example_clock sample_state);
      Alert ("Development Plan exported successfully!" ++ LF ++ LF ++
             "Buildings placed: 2" ++ LF ++ LF ++
             "This would normally send the plan to your Sgiach platform for cost analysis and feasibility assessment.")%string ] /\
  nth_error (snd (exportDevelopment example_clock initial)) 1 =
    Some (Alert ("Development Plan exported successfully!" ++ LF ++ LF ++
                 "Buildings placed: 0" ++ LF ++ LF ++
                 "This would normally send the plan to your Sgiach platform for cost analysis and feasibility assessment.")%string).
Proof. split; reflexivity. Qed.

(** C8, counterexample.  With two buildings placed, the export hands no
    file to the browser, so there is nothing to parse back. *)
Lemma exportDevelopment_writes_no_file :
  ~ produces_file
      (snd (exportDevelopment "2025-01-01T00:00:00.000Z" sample_state)).
Proof.
  intros (content & filename & Hin). simpl in Hin.
  destruct Hin as [H | [H | []]]; discriminate H.
Qed.

End PlacementFacts.

(* ===================================================================== *)
(** ** The landing page: requests *)
(* ===================================================================== *)

Section LandingRequests.
Import JS Handler Landing.
Context {rt : Runtime} {co : Wire.Coercions}.
Local Open Scope string_scope.

Lemma two_hundred_ok {B : Type} (status : Z) (body : option B) :
  ok (status, body) = ((200 <=? status) && (status <=? 299))%Z.
Proof. reflexivity. Qed.

(** *** Values of the [/analyze] shape render as the typed page does *)

Lemma shaped_scenarioCard (scenario : Scenario) :
  Wire.scenarioCard (Scenario_to_Json scenario) =
  Return (scenarioCard scenario).
Proof. reflexivity. Qed.

Lemma shaped_scenarioCards (l : list Scenario) :
  Wire.map_outcome Wire.scenarioCard (map Scenario_to_Json l) =
  Return (map scenarioCard l).
Proof.
  induction l as [|sc l IH]; [reflexivity|].
  change (Wire.and_then (Wire.scenarioCard (Scenario_to_Json sc))
            (fun b =>
               Wire.and_then
                 (Wire.map_outcome Wire.scenarioCard
                    (map Scenario_to_Json l))
                 (fun bs => Return (b :: bs))) =
          Return (scenarioCard sc :: map scenarioCard l)).
  now rewrite shaped_scenarioCard, IH.
Qed.

Lemma shaped_createPropertyCard (opportunity : Opportunity) (rank : nat) :
  Wire.createPropertyCard (Opportunity_to_Json opportunity) rank =
  Return (createPropertyCard opportunity rank).
Proof.
  unfold Wire.createPropertyCard, Opportunity_to_Json.
  cbn [Wire.read Wire.own_property Wire.and_then Wire.first_of String.eqb
       Ascii.eqb Bool.eqb Property_to_Json Wire.toLocaleString_of].
  rewrite shaped_scenarioCards. reflexivity.
Qed.

Lemma shaped_append_cards (l : list Opportunity) (index : nat)
    (page : Wire.Page) :
  Wire.append_cards (map Opportunity_to_Json l) index page =
  (Return tt,
   {| Wire.currentAnalysisData := Wire.currentAnalysisData page;
      Wire.resultsSummary_textContent := Wire.resultsSummary_textContent page;
      Wire.propertiesGrid :=
        (Wire.propertiesGrid page ++
         mapi (fun opportunity i => createPropertyCard opportunity (i + 1))
           index l)%list;
      Wire.resultsContainer_display := Wire.resultsContainer_display page |},
   []).
Proof.
  revert index page. induction l as [|o l IH]; intros index page.
  - simpl. unfold ret. rewrite app_nil_r. now destruct page.
  - change (Wire.append_cards (map Opportunity_to_Json (o :: l)) index page)
      with (bind (lift (Wire.createPropertyCard (Opportunity_to_Json o)
                          (index + 1)))
              (fun card =>
                 bind (Wire.set_grid (fun grid => (grid ++ [card])%list))
                   (fun _ => Wire.append_cards (map Opportunity_to_Json l)
                               (S index))) page).
    rewrite shaped_createPropertyCard.
    unfold bind, lift, Wire.set_grid, modify. rewrite IH.
    cbn [Wire.currentAnalysisData Wire.resultsSummary_textContent
         Wire.propertiesGrid Wire.resultsContainer_display app mapi].
    now rewrite <- app_assoc.
Qed.

Lemma shaped_displayResults (data : AnalysisData) (page : Wire.Page) :
  Wire.displayResults (to_Json data) page =
  (Return tt, Wire.shown data, [ScrollIntoView "resultsContainer"]).
Proof.
  unfold Wire.displayResults, to_Json, bind, lift, Wire.set_held,
    Wire.set_summary, Wire.set_grid, Wire.set_display, modify, perform.
  cbn [Wire.read Wire.own_property String.eqb Ascii.eqb Bool.eqb
       Summary_to_Json].
  rewrite shaped_append_cards. reflexivity.
Qed.

(** C3 (amended). Whatever the payload and whatever the network does,
    [performAnalysis] returns a result and never throws, and it leaves the
    page state alone.  With no response, with a status outside 200..299 and
    with a 2xx body that is not JSON, the result is the value of
    [getTestData formData], which [displayResults] renders.  A 2xx JSON
    body is handed on as it is, unchecked; [displayResults] renders it when
    it has the [/analyze] shape. *)
Theorem performAnalysis_never_throws (net : Network) (formData : FormData)
    (st : State) :
  let r := performAnalysis net formData st in
  (exists results, result_of r = Return results) /\
  state_of r = st /\
  match post_analyze net formData with
  | NetworkError => result_of r = Return (to_Json (getTestData formData))
  | Response status body =>
      if ((200 <=? status) && (status <=? 299))%Z
      then match body with
           | Some value => result_of r = Return value
           | None => result_of r = Return (to_Json (getTestData formData))
           end
      else result_of r = Return (to_Json (getTestData formData))
  end /\
  Wire.renders (to_Json (getTestData formData)) /\
  forall data : AnalysisData, Wire.renders (to_Json data).
Proof.
  assert (Hshaped : forall data : AnalysisData, Wire.renders (to_Json data)).
  { intros data page. now rewrite shaped_displayResults. }
  assert (Hrenders : Wire.renders (to_Json (getTestData formData)) /\
                     forall data : AnalysisData, Wire.renders (to_Json data))
    by (split; [apply Hshaped | exact Hshaped]).
  clear Hshaped.
  unfold performAnalysis, try_catch, bind, fetch, perform, throw, ret, json,
    result_of, state_of.
  destruct (post_analyze net formData) as [|status [value|]]; simpl.
  - split; [now eexists|]. split; [reflexivity|]. split;
      [reflexivity | exact Hrenders].
  - rewrite two_hundred_ok.
    destruct ((200 <=? status) && (status <=? 299))%Z; simpl;
      (split; [now eexists|]); (split; [reflexivity|]);
      (split; [reflexivity | exact Hrenders]).
  - rewrite two_hundred_ok.
    destruct ((200 <=? status) && (status <=? 299))%Z; simpl;
      (split; [now eexists|]); (split; [reflexivity|]);
      (split; [reflexivity | exact Hrenders]).
Qed.

(** The fallback leaves a trace on the console and nowhere else. *)
Example performAnalysis_offline (formData : FormData) (st : State) :
  performAnalysis
    {| get_health := NetworkError; get_root := NetworkError;
       post_analyze := fun _ => Response 503 None |} formData st =
  (Return (to_Json (getTestData formData)), st,
   [ Fetch "POST" "http://127.0.0.1:8000/analyze";
     ConsoleLogError "Using test data due to API error:"
       (ErrorMessage "API Error: 503") ]).
Proof. reflexivity. Qed.

(** A 200 answer with the body [{}] is handed to the caller, and
    [displayResults] stops at its first read, having replaced the held
    data and nothing else. *)
Example displayResults_empty_object :
  performAnalysis Wire.answers_empty_object sample_form Wire.loaded =
    (Return (JObject []), Wire.loaded,
     [Fetch "POST" "http://127.0.0.1:8000/analyze"]) /\
  Wire.displayResults (JObject []) Wire.loaded =
    (Throw (TypeError "total_properties_found"),
     {| Wire.currentAnalysisData := Some (JObject []);
        Wire.resultsSummary_textContent := "";
        Wire.propertiesGrid := [];
        Wire.resultsContainer_display := "none" |},
     []).
Proof. split; reflexivity. Qed.

(** C4. The connectivity check requests [/health] first.  If that probe
    succeeds it is the only request; otherwise [/] is requested next, and
    nothing else.  A [/health] answer of status 200 with body
    [{message: "Ready"}] leaves the status text "API Connected - Ready".
    When both probes fail the page is marked disconnected, the status text
    is "API Disconnected - Using Test Data" and an informational toast is
    shown. *)
Theorem checkAPIConnection_probes (net : Network) (st : State) :
  let r := checkAPIConnection net st in
  result_of r = Return tt /\
  (if health_probe_succeeds net
   then effects_of r = [Fetch "GET" health_url] /\
        apiStatus_className (state_of r) = "api-status connected"
   else if root_probe_succeeds net
   then effects_of r = [Fetch "GET" health_url; Fetch "GET" root_url] /\
        apiStatus_className (state_of r) = "api-status connected" /\
        statusText_textContent (state_of r) = "API Connected"
   else effects_of r =
          [ Fetch "GET" health_url; Fetch "GET" root_url;
            ConsoleLog ("INFO: " ++ disconnected_notice);
            Toast "info" disconnected_notice ] /\
        apiStatus_className (state_of r) = "api-status disconnected" /\
        statusText_textContent (state_of r) =
          "API Disconnected - Using Test Data") /\
  (get_health net = Response 200 (Some (HealthValue (Some "Ready"))) ->
   statusText_textContent (state_of r) = "API Connected - Ready").
Proof.
  unfold health_probe_succeeds, root_probe_succeeds.
  unfold checkAPIConnection, try_catch, bind, fetch, perform, throw, ret,
    json, result_of, state_of, effects_of, set_className, set_indicator,
    set_text, set_status, showMessage, modify, get, message_or_Ready.
  split; [|split].
  - destruct (get_health net) as [|hs [[|[msg|]]|]],
      (get_root net) as [|rs rb]; simpl;
      rewrite ?two_hundred_ok;
      repeat match goal with
             | |- context [((200 <=? ?z) && (?z <=? 299))%Z] =>
                 destruct ((200 <=? z) && (z <=? 299))%Z; simpl
             end; reflexivity.
  - destruct (get_health net) as [|hs [[|[msg|]]|]],
      (get_root net) as [|rs rb]; simpl;
      rewrite ?two_hundred_ok;
      repeat match goal with
             | |- context [((200 <=? ?z) && (?z <=? 299))%Z] =>
                 destruct ((200 <=? z) && (z <=? 299))%Z; simpl
             end; repeat split.
  - intros ->. reflexivity.
Qed.

(** The two scenarios of the specification, run from the page as loaded. *)
Example connectivity_success :
  statusText_textContent
    (state_of
       (checkAPIConnection
          {| get_health := Response 200 (Some (HealthValue (Some "Ready")));
             get_root := NetworkError;
             post_analyze := fun _ => NetworkError |} initial)) =
  "API Connected - Ready".
Proof. reflexivity. Qed.

Example connectivity_double_failure :
  checkAPIConnection
    {| get_health := NetworkError; get_root := Response 502 None;
       post_analyze := fun _ => NetworkError |} initial =
  (Return tt,
   {| currentAnalysisData := None;
      apiStatus_className := "api-status disconnected";
      statusIndicator_textContent := "●";
      statusText_textContent := "API Disconnected - Using Test Data";
      resultsSummary_textContent := "";
      propertiesGrid := [];
      resultsContainer_display := "none" |},
   [ Fetch "GET" "http://127.0.0.1:8000/health";
     Fetch "GET" "http://127.0.0.1:8000/";
     ConsoleLog "INFO: Cannot connect to Real Estate Analysis API. Using test data for demonstration.";
     Toast "info" "Cannot connect to Real Estate Analysis API. Using test data for demonstration." ]).
Proof. reflexivity. Qed.

End LandingRequests.

(* ===================================================================== *)
(** ** The landing page: result cards and the CSV export *)
(* ===================================================================== *)

Section LandingResults.
Import JS Handler Landing.
Context {rt : Runtime}.
Local Open Scope string_scope.

Lemma collect_scenarioCards (l : list Scenario) :
  flat_map (collect "scenario-card") (map scenarioCard l) =
  map scenarioCard l.
Proof.
  induction l as [|s l IH]; [reflexivity|].
  change (scenarioCard s :: flat_map (collect "scenario-card")
                              (map scenarioCard l) =
          scenarioCard s :: map scenarioCard l).
  now rewrite IH.
Qed.

Lemma collect_metric_values (l : list Scenario) :
  flat_map (collect "metric-value") (map scenarioCard l) =
  flat_map metric_values l.
Proof.
  induction l as [|s l IH]; [reflexivity|].
  change ((metric_values s ++
           flat_map (collect "metric-value") (map scenarioCard l))%list =
          (metric_values s ++ flat_map metric_values l)%list).
  now rewrite IH.
Qed.

(** C5 (amended). The card of an opportunity holds one scenario card per
    scenario, in order, and therefore the four metrics (ROI, timeline,
    investment in millions, net profit in thousands) of every scenario, not
    only of the first. *)
Theorem card_shows_every_scenario (opportunity : Opportunity) (rank : nat) :
  collect "scenario-card" (createPropertyCard opportunity rank) =
    map scenarioCard (scenarios opportunity) /\
  collect "metric-value" (createPropertyCard opportunity rank) =
    flat_map metric_values (scenarios opportunity).
Proof.
  split.
  - change (collect "scenario-card" (createPropertyCard opportunity rank))
      with (((flat_map (collect "scenario-card")
                (map scenarioCard (scenarios opportunity)) ++ []) ++ [])%list).
    now rewrite !app_nil_r, collect_scenarioCards.
  - change (collect "metric-value" (createPropertyCard opportunity rank))
      with (((flat_map (collect "metric-value")
                (map scenarioCard (scenarios opportunity)) ++ []) ++ [])%list).
    now rewrite !app_nil_r, collect_metric_values.
Qed.

(** *** The CSV export *)

Lemma append_assoc (a b c : string) : (a ++ b) ++ c = a ++ (b ++ c).
Proof. induction a as [|ch a IH]; simpl; [reflexivity | now rewrite IH]. Qed.

Lemma csv_row_first (opp : Opportunity) (index : nat) :
  match nth_error (scenarios opp) 0 with
  | Some scenario => csv_row opp index = Return (csv_line index opp scenario)
  | None => csv_row opp index = Throw (TypeError "financial_analysis")
  end.
Proof.
  unfold csv_row, csv_line. destruct (nth_error (scenarios opp) 0); reflexivity.
Qed.

(** The loop, when every opportunity has a scenario: one line each. *)
Lemma csv_rows_lines (opps : list Opportunity) :
  Forall (fun opp => scenarios opp <> []) opps ->
  forall (index : nat) (csv : string),
  exists rows,
    csv_rows opps index csv = Return (csv ++ join rows) /\
    List.length rows = List.length opps /\
    forall i opp,
      nth_error opps i = Some opp ->
      exists scenario,
        nth_error (scenarios opp) 0 = Some scenario /\
        nth_error rows i = Some (csv_line (index + i) opp scenario).
Proof.
  induction 1 as [|opp opps Hopp _ IH]; intros index csv.
  - exists []. split; [|split].
    + simpl. f_equal. induction csv as [|c csv IHc]; simpl; congruence.
    + reflexivity.
    + intros [|i] o Ho; discriminate Ho.
  - pose proof (csv_row_first opp index) as Hrow.
    destruct (scenarios opp) as [|scenario others] eqn:Hs; [contradiction|].
    simpl in Hrow.
    destruct (IH (S index) (csv ++ csv_line index opp scenario))
      as (rows & Hrows & Hlen & Hnth).
    exists (csv_line index opp scenario :: rows). split; [|split].
    + simpl. rewrite Hrow, Hrows. now rewrite append_assoc.
    + simpl. now rewrite Hlen.
    + intros [|i] o Ho; simpl in Ho.
      * injection Ho as <-. exists scenario. rewrite Hs. split; [reflexivity|].
        simpl. now rewrite Nat.add_0_r.
      * destruct (Hnth i o Ho) as (sc & Hsc & Hr).
        exists sc. split; [exact Hsc|]. simpl.
        now rewrite Nat.add_succ_r.
Qed.

(** C7 (amended). When the held analysis result gives every opportunity at
    least one scenario, [exportCSV] downloads [sgiach-analysis.csv] holding
    the fixed header line followed by exactly one line per opportunity, in
    order; line [i] starts with the rank [i + 1], quotes the address and
    nothing else, and takes its figures from the first scenario only.  The
    state is unchanged and a success toast follows. *)
Theorem exportCSV_header_and_rows (st : State) (data : AnalysisData) :
  currentAnalysisData st = Some data ->
  Forall (fun opp => scenarios opp <> []) (opportunities data) ->
  exists rows,
    exportCSV st =
      (Return tt, st,
       [ DownloadFile (csv_header ++ join rows) "sgiach-analysis.csv"
           "text/csv";
         ConsoleLog "SUCCESS: Analysis exported to CSV successfully!";
         Toast "success" "Analysis exported to CSV successfully!" ]) /\
    csv_header =
      "Rank,Address,Price,Zoning,ROI,Timeline,Investment,Profit" ++ LF /\
    List.length rows = List.length (opportunities data) /\
    forall i opp,
      nth_error (opportunities data) i = Some opp ->
      exists scenario,
        nth_error (scenarios opp) 0 = Some scenario /\
        nth_error rows i =
          Some (nat_toString (i + 1) ++ "," ++
                quote ++ address (property opp) ++ quote ++ "," ++
                Number_toString (price (property opp)) ++ "," ++
                zoning (property opp) ++ "," ++
                Number_toString
                  (roi_percentage (financial_analysis scenario)) ++ "," ++
                Number_toString (timeline_months scenario) ++ "," ++
                Number_toString
                  (total_development_cost (financial_analysis scenario)) ++
                "," ++
                Number_toString (net_profit (financial_analysis scenario)) ++
                LF).
Proof.
  intros Hdata Hall.
  destruct (csv_rows_lines (opportunities data) Hall 0 csv_header)
    as (rows & Hrows & Hlen & Hnth).
  exists rows. split; [|split; [reflexivity | split; [exact Hlen|]]].
  - unfold exportCSV, bind, get, lift, downloadFile, showMessage, perform.
    rewrite Hdata. unfold lift. rewrite Hrows. reflexivity.
  - intros i opp Hopp. destruct (Hnth i opp Hopp) as (sc & Hsc & Hr).
    exists sc. split; [exact Hsc|]. exact Hr.
Qed.

(** C10. With no analysis data held, [exportCSV] returns at once: no file,
    no toast, no change of state; so it does on the page as loaded and after
    any [newSearch], which resets the data to [null].  Likewise
    [exportAnalysisReport] returns at once, downloading nothing, when no
    property analysis is held. *)
Theorem export_without_data_is_silent (st : State) (page : Mapping.State)
    (now : string) (now_ms : Z) :
  currentAnalysisData st = None ->
  Mapping.currentProperty page = None ->
  exportCSV st = (Return tt, st, []) /\
  Mapping.exportAnalysisReport now now_ms page = (Return tt, page, []) /\
  exportCSV initial = (Return tt, initial, []) /\
  forall before : State,
    currentAnalysisData (state_of (newSearch before)) = None /\
    exportCSV (state_of (newSearch before)) =
      (Return tt, state_of (newSearch before), []).
Proof.
  intros Hdata Hpage. split; [|split; [|split]].
  - unfold exportCSV, bind, get. now rewrite Hdata.
  - unfold Mapping.exportAnalysisReport, bind, get. now rewrite Hpage.
  - reflexivity.
  - intros before. split; reflexivity.
Qed.

End LandingResults.

(** C5, counterexample.  For an opportunity with two scenarios the card
    shows eight metric values: those of the first scenario and those of the
    second, whose ROI of 28.9% is among them. *)
Lemma card_shows_second_scenario :
  let rt := JS.decimal_runtime JS.example_clock in
  let opportunity := Landing.two_scenarios (rt := rt) Landing.sample_form in
  ~ Landing.shows_first_scenario_only (rt := rt) opportunity
      (Landing.createPropertyCard (rt := rt) opportunity 1) /\
  In (Landing.Div "metric-value" [Landing.Text "28.9%"])
     (Landing.collect "metric-value"
        (Landing.createPropertyCard (rt := rt) opportunity 1)).
Proof.
  split.
  - intros H. apply (f_equal (@List.length _)) in H.
    vm_compute in H. discriminate H.
  - vm_compute. tauto.
Qed.

(** C3, counterexample.  [/analyze] answers 200 with the body [{}]:
    [performAnalysis] hands that object to its caller, and [displayResults]
    throws on it at its first read, so the caller has not received a result
    it can render. *)
Lemma performAnalysis_unchecked_body :
  ~ Wire.receives_renderable (rt := JS.decimal_runtime JS.example_clock)
      (co := Wire.example_coercions) Wire.answers_empty_object
      Landing.sample_form.
Proof.
  intros (results & Hresult & Hrenders).
  assert (Hempty : results = JS.JObject []).
  { vm_compute in Hresult. now injection Hresult as <-. }
  subst results. specialize (Hrenders Wire.loaded).
  vm_compute in Hrenders. discriminate Hrenders.
Qed.

(** The export of the test data: the header and two lines, ranks 1 and 2,
    ROI 33.3 and 28.9. *)
Example exportCSV_test_data :
  Handler.effects_of
    (Landing.exportCSV (rt := JS.decimal_runtime JS.example_clock)
       (Landing.holding
          (Landing.getTestData (rt := JS.decimal_runtime JS.example_clock)
             Landing.sample_form))) =
  [ Landing.DownloadFile
      ("Rank,Address,Price,Zoning,ROI,Timeline,Investment,Profit" ++ JS.LF ++
       "1," ++ JS.quote ++ "10542 82 Avenue NW, Edmonton, AB" ++ JS.quote ++
       ",850000,RA7,33.3,18,2400000,800000" ++ JS.LF ++
       "2," ++ JS.quote ++ "8720 118 Avenue NW, Edmonton, AB" ++ JS.quote ++
       ",1200000,CB1,28.9,24,3800000,1100000" ++ JS.LF)%string
      "sgiach-analysis.csv" "text/csv";
    Landing.ConsoleLog "SUCCESS: Analysis exported to CSV successfully!";
    Landing.Toast "success" "Analysis exported to CSV successfully!" ].
Proof. vm_compute. reflexivity. Qed.

(** The export of the held test data, through the general statement. *)
Lemma exportCSV_header_and_rows_witness :
  let rt := JS.decimal_runtime JS.example_clock in
  let data := Landing.getTestData (rt := rt) Landing.sample_form in
  Landing.currentAnalysisData (Landing.holding data) = Some data /\
  Forall (fun opp => Landing.scenarios opp <> [])
    (Landing.opportunities data) /\
  exists rows,
    Handler.effects_of (Landing.exportCSV (rt := rt) (Landing.holding data)) =
      [ Landing.DownloadFile (Landing.csv_header ++ Landing.join rows)
          "sgiach-analysis.csv" "text/csv";
        Landing.ConsoleLog "SUCCESS: Analysis exported to CSV successfully!";
        Landing.Toast "success" "Analysis exported to CSV successfully!" ] /\
    List.length rows = 2%nat.
Proof.
  intros rt data.
  assert (H1 : Landing.currentAnalysisData (Landing.holding data) = Some data)
    by reflexivity.
  assert (H2 : Forall (fun opp => Landing.scenarios opp <> [])
                 (Landing.opportunities data))
    by (repeat constructor; discriminate).
  split; [exact H1|]. split; [exact H2|].
  destruct (exportCSV_header_and_rows (rt := rt) (Landing.holding data) data
              H1 H2) as (rows & Hrun & _ & Hlen & _).
  exists rows. split; [now rewrite Hrun | exact Hlen].
Defined.

(** C7, counterexample.  Held data whose third opportunity has no scenario:
    the loop throws on reading its first scenario, so no file is handed
    over at all. *)
Lemma exportCSV_throws_without_scenario :
  let rt := JS.decimal_runtime JS.example_clock in
  let data := Landing.with_unplanned_lot (rt := rt) Landing.sample_form in
  ~ Landing.csv_exported data
      (Handler.effects_of
         (Landing.exportCSV (rt := rt) (Landing.holding data))) /\
  Handler.result_of (Landing.exportCSV (rt := rt) (Landing.holding data)) =
    Handler.Throw (Handler.TypeError "financial_analysis").
Proof.
  split; [|reflexivity].
  intros (rows & _ & Hin). vm_compute in Hin. exact Hin.
Qed.

(** The page as loaded and a map page without analysis: both exports are
    silent. *)
Lemma export_without_data_is_silent_witness :
  Landing.currentAnalysisData Landing.initial = None /\
  Mapping.currentProperty (Mapping.mkState None) = None /\
  Landing.exportCSV (rt := JS.decimal_runtime JS.example_clock)
    Landing.initial = (Handler.Return tt, Landing.initial, []) /\
  Mapping.exportAnalysisReport JS.example_clock 1735689600000
    (Mapping.mkState None) = (Handler.Return tt, Mapping.mkState None, []).
Proof.
  split; [reflexivity|]. split; [reflexivity|].
  destruct (export_without_data_is_silent
              (rt := JS.decimal_runtime JS.example_clock)
              Landing.initial (Mapping.mkState None) JS.example_clock
              1735689600000 eq_refl eq_refl) as (Hcsv & Hreport & _).
  split; [exact Hcsv | exact Hreport].
Defined.

(* ===================================================================== *)
(** ** The professional validation request *)
(* ===================================================================== *)

Section ValidationRequest.
Import JS Handler Mapping.
Local Open Scope string_scope.


(** On success the alert names the request. *)
Example validation_success :
  effects_of
    (requestProfessionalValidation
       (Response 200
          (Some (mkValidationResponse
                   (Some (mkValidationRequest (Some "VR-2025-0042"))))))
       (mkState (Some sample_property))) =
  [ Fetch "POST" "/professional/validation-request" "comprehensive"
      (property_data sample_property);
    Alert "Professional validation requested! Request ID: VR-2025-0042" ].
Proof. reflexivity. Qed.



End ValidationRequest.

(* ===================================================================== *)
(** ** The placement page: invariants and composition *)
(* ===================================================================== *)

Section PlanFacts.
Import JS Placement Plan.

Lemma sample_state_reachable : reachable sample_state.
Proof. unfold sample_state. repeat apply reachable_step. constructor. Qed.

Lemma sample_state_reachable_on : reachable_on sample_layout sample_state.
Proof.
  unfold sample_state, handle.
  apply on_drop, on_dragstart, on_drop, on_dragstart, on_initial.
Qed.

Lemma reachable_on_reachable (lay : Layout) (st : State) :
  reachable_on lay st -> reachable st.
Proof.
  induction 1 as [|item st _ IH | e st _ IH | this st _ IH | now st _ IH].
  - constructor.
  - exact (reachable_step (DragStart item) st IH).
  - exact (reachable_step (Drop lay e) st IH).
  - exact (reachable_step (DblClick this) st IH).
  - exact (reachable_step (ExportDevelopment now) st IH).
Qed.

(** Removing the first record of a div is removing all of them, the divs
    being distinct. *)
Lemma splice_first_filter (this : nat) (l : list PlacedBuilding) :
  NoDup (map element l) ->
  match findIndex (fun b => Nat.eqb (element b) this) l with
  | Some i => splice1 i l
  | None => l
  end = filter (fun b => negb (Nat.eqb (element b) this)) l.
Proof.
  induction l as [|a l IH]; intros Hnd; [reflexivity|].
  inversion Hnd as [|? ? Hnotin Hnd']; subst. simpl.
  destruct (Nat.eqb (element a) this) eqn:Ha; simpl.
  - apply Nat.eqb_eq in Ha. unfold splice1. simpl.
    symmetry. apply forallb_filter_id. apply forallb_forall.
    intros b Hb. apply negb_true_iff, Nat.eqb_neq. intros Heq.
    apply Hnotin. apply in_map_iff. exists b. split; [congruence | exact Hb].
  - specialize (IH Hnd').
    destruct (findIndex _ l) as [i|].
    + change (splice1 (S i) (a :: l)) with (a :: splice1 i l).
      now rewrite IH.
    + now rewrite <- IH.
Qed.

Lemma filter_map_div (this : nat) (l : list PlacedBuilding) :
  filter (fun d => negb (Nat.eqb (node d) this)) (map div_of l) =
  map div_of (filter (fun b => negb (Nat.eqb (element b) this)) l).
Proof.
  induction l as [|a l IH]; [reflexivity|]. simpl.
  destruct (Nat.eqb (element a) this); simpl; now rewrite IH.
Qed.

Lemma dblclick_filters (this : nat) (st : State) :
  reachable st ->
  placedBuildings (fst (dblclick this st)) =
  filter (fun b => negb (Nat.eqb (element b) this)) (placedBuildings st).
Proof.
  intros Hr. destruct (reachable_nodes_distinct st Hr) as [_ Hnd].
  unfold dblclick; simpl. now apply splice_first_filter.
Qed.

(** X1. In every reachable state the grid holds exactly one div per
    record, in the same order, each div carrying its record's position,
    size and type. *)
Theorem grid_in_step (st : State) : reachable st -> in_step st.
Proof.
  induction 1 as [|a st Hr IH]; [reflexivity|].
  unfold in_step in *.
  destruct a as [item | lay e | this | now]; unfold handle.
  - exact IH.
  - unfold drop. destruct (draggedElement st) as [item|]; [|exact IH].
    destruct (withinBuildable _ _ _ _ _ _ _ _); simpl; [|exact IH].
    rewrite IH, map_app. reflexivity.
  - rewrite (dblclick_filters this st Hr).
    unfold dblclick; simpl. rewrite IH. apply filter_map_div.
  - exact IH.
Qed.

Lemma grid_in_step_witness :
  reachable sample_state /\
  map node (gridChildren sample_state) =
    map element (placedBuildings sample_state).
Proof.
  split; [exact sample_state_reachable|].
  rewrite (grid_in_step sample_state sample_state_reachable).
  now rewrite map_map.
Defined.

Lemma fits_finite (lay : Layout) (b : PlacedBuilding) :
  fits lay b ->
  finite (x b) /\ finite (y b) /\ finite (width b) /\ finite (height b).
Proof.
  unfold fits, buildableX, buildableY, buildableWidth, buildableHeight.
  destruct (x b), (y b), (width b), (height b); simpl; tauto.
Qed.

(** X2. While the page keeps one layout, every record in the collection
    lies inside the buildable rectangle, corner and footprint, and its four
    numbers are finite: a size that does not parse is never recorded. *)
Theorem placed_fit_layout (lay : Layout) (st : State) :
  reachable_on lay st ->
  Forall (fun b => fits lay b /\ finite (width b) /\ finite (height b))
    (placedBuildings st).
Proof.
  induction 1 as [|item st _ IH | e st _ IH | this st _ IH | now st _ IH].
  - constructor.
  - exact IH.
  - destruct (draggedElement st) as [item|] eqn:Hdrag.
    + destruct (drop_dragged lay e st item Hdrag)
        as [(Hin & -> & _) | (_ & -> & _)]; [|exact IH].
      apply Forall_app. split; [exact IH|].
      constructor; [|constructor].
      assert (Hfits : fits lay (placed_record lay e item st)) by exact Hin.
      split; [exact Hfits|]. apply (fits_finite lay _ Hfits).
    + unfold drop. rewrite Hdrag. exact IH.
  - destruct (after_dblclick this st) as [-> | [i ->]]; [exact IH|].
    now apply splice1_Forall.
  - exact IH.
Qed.

Lemma placed_fit_layout_witness :
  reachable_on sample_layout sample_state /\
  Forall (fun b => fits sample_layout b /\
                   finite (width b) /\ finite (height b))
    (placedBuildings sample_state).
Proof.
  split; [exact sample_state_reachable_on|].
  exact (placed_fit_layout sample_layout sample_state
           sample_state_reachable_on).
Defined.

(** X3. The decision of a drop never looks at the buildings already placed:
    two states dragging the same entry get the same effects from the same
    drop, and append records with the same type, position and size.
    Overlaps and duplicates are therefore accepted. *)
Theorem drop_ignores_placed (lay : Layout) (e : DragEvent)
    (st1 st2 : State) :
  draggedElement st1 = draggedElement st2 ->
  snd (drop lay e st1) = snd (drop lay e st2) /\
  exists added1 added2,
    placedBuildings (fst (drop lay e st1)) =
      placedBuildings st1 ++ added1 /\
    placedBuildings (fst (drop lay e st2)) =
      placedBuildings st2 ++ added2 /\
    map tuple_of added1 = map tuple_of added2.
Proof.
  intros Hsame. unfold drop. rewrite <- Hsame.
  destruct (draggedElement st1) as [item|].
  - destruct (withinBuildable _ _ _ _ _ _ _ _); simpl.
    + split; [reflexivity|]. do 2 eexists.
      split; [reflexivity|]. split; reflexivity.
    + split; [reflexivity|]. exists [], [].
      now rewrite !app_nil_r.
  - split; [reflexivity|]. exists [], []. now rewrite !app_nil_r.
Qed.

(** The same garden dropped twice on the same spot is recorded twice. *)
Lemma drop_ignores_placed_witness :
  let garden := mkElement "garden" "80x80" in
  let once :=
    fst (drop sample_layout (mkDragEvent 260 200)
           (fst (dragstart garden initial))) in
  let twice :=
    fst (drop sample_layout (mkDragEvent 260 200)
           (fst (dragstart garden once))) in
  draggedElement (fst (dragstart garden initial)) =
    draggedElement (fst (dragstart garden once)) /\
  snd (drop sample_layout (mkDragEvent 260 200)
         (fst (dragstart garden initial))) =
    snd (drop sample_layout (mkDragEvent 260 200)
           (fst (dragstart garden once))) /\
  map tuple_of (placedBuildings twice) =
    [ ("garden"%string, Num 270, Num 210, Num 80, Num 80);
      ("garden"%string, Num 270, Num 210, Num 80, Num 80) ].
Proof.
  intros garden once twice.
  split; [reflexivity|]. split; [|reflexivity].
  exact (proj1 (drop_ignores_placed sample_layout (mkDragEvent 260 200)
                  (fst (dragstart garden initial))
                  (fst (dragstart garden once)) eq_refl)).
Defined.

(** X4. A drop uses up the drag: afterwards nothing is being dragged, and
    a second drop without a new [dragstart] does nothing at all. *)
Theorem drop_consumes_drag (lay lay' : Layout) (e e' : DragEvent)
    (st : State) :
  draggedElement (fst (drop lay e st)) = None /\
  drop lay' e' (fst (drop lay e st)) = (fst (drop lay e st), []).
Proof.
  assert (Hnone : draggedElement (fst (drop lay e st)) = None).
  { unfold drop. destruct (draggedElement st) as [item|] eqn:Hdrag.
    - destruct (withinBuildable _ _ _ _ _ _ _ _); reflexivity.
    - exact Hdrag. }
  split; [exact Hnone|].
  unfold drop at 1. now rewrite Hnone.
Qed.

Lemma findIndex_filtered {A : Type} (p : A -> bool) (l : list A) :
  findIndex p (filter (fun a => negb (p a)) l) = None.
Proof.
  induction l as [|a l IH]; [reflexivity|]. simpl.
  destruct (p a) eqn:Hp; simpl; [exact IH|]. now rewrite Hp, IH.
Qed.

Lemma filter_twice {A : Type} (p : A -> bool) (l : list A) :
  filter p (filter p l) = filter p l.
Proof.
  induction l as [|a l IH]; [reflexivity|]. simpl.
  destruct (p a) eqn:Hp; simpl; [now rewrite Hp, IH | exact IH].
Qed.

(** X5. In a reachable state a second double click on the same div changes
    nothing: the first one has removed its record and its div for good. *)
Theorem dblclick_idempotent (this : nat) (st : State) :
  reachable st ->
  fst (dblclick this (fst (dblclick this st))) = fst (dblclick this st).
Proof.
  intros Hr. destruct (reachable_nodes_distinct st Hr) as [_ Hnd].
  unfold dblclick; simpl.
  rewrite (splice_first_filter this _ Hnd).
  rewrite (findIndex_filtered (fun b => Nat.eqb (element b) this)).
  now rewrite filter_twice.
Qed.

Lemma dblclick_idempotent_witness :
  reachable sample_state /\
  fst (dblclick 0 (fst (dblclick 0 sample_state))) =
    fst (dblclick 0 sample_state).
Proof.
  split; [exact sample_state_reachable|].
  exact (dblclick_idempotent 0 sample_state sample_state_reachable).
Defined.

Lemma sorted_snoc (l : list nat) (n : nat) :
  StronglySorted lt l -> Forall (fun a => (a < n)%nat) l ->
  StronglySorted lt (l ++ [n]).
Proof.
  induction 1 as [|a l Hs IH Ha]; intros Hlt; simpl.
  - repeat constructor.
  - inversion Hlt as [|? ? Han Hlt']; subst. constructor.
    + now apply IH.
    + apply Forall_app. split; [exact Ha | now constructor].
Qed.

Lemma sorted_splice {A : Type} (f : A -> nat) (i : nat) (l : list A) :
  StronglySorted lt (map f l) -> StronglySorted lt (map f (splice1 i l)).
Proof.
  revert i. induction l as [|a l IH]; intros i Hs.
  - destruct i; exact Hs.
  - inversion Hs as [|? ? Hs' Ha]; subst.
    destruct i as [|i]; [exact Hs'|].
    change (StronglySorted lt (f a :: map f (splice1 i l))).
    constructor; [now apply IH|].
    rewrite Forall_forall in *. intros n Hn. apply Ha.
    rewrite in_map_iff in *. destruct Hn as (b & Hb & Hin).
    exists b. eauto using splice1_In.
Qed.

(** X6. The collection keeps insertion order: in every reachable state the
    records appear in the order their divs were created, removals
    included. *)
Theorem placed_in_insertion_order (st : State) :
  reachable st -> StronglySorted lt (map element (placedBuildings st)).
Proof.
  induction 1 as [|a st Hr IH]; [constructor|].
  destruct (reachable_nodes_distinct st Hr) as [Hlt _].
  destruct a as [item | lay e | this | now]; unfold handle.
  - exact IH.
  - destruct (after_drop lay e st) as [[-> _] | (item & -> & _)]; [exact IH|].
    rewrite map_app. apply sorted_snoc; [exact IH|].
    rewrite Forall_map. exact Hlt.
  - destruct (after_dblclick this st) as [-> | [i ->]]; [exact IH|].
    now apply sorted_splice.
  - exact IH.
Qed.

Lemma placed_in_insertion_order_witness :
  reachable sample_state /\
  StronglySorted lt (map element (placedBuildings sample_state)).
Proof.
  split; [exact sample_state_reachable|].
  exact (placed_in_insertion_order sample_state sample_state_reachable).
Defined.

End PlanFacts.

(* ===================================================================== *)
(** ** The placement page: layer and tool buttons *)
(* ===================================================================== *)

Section ToolbarFacts.
Import JS Toolbar.
Local Open Scope string_scope.

Lemma nth_error_update_at (f : Button -> Button) (l : list Button)
    (i : nat) (b : Button) :
  nth_error l i = Some b -> nth_error (update_at i f l) i = Some (f b).
Proof.
  revert i. induction l as [|a l IH]; intros [|i] H; try discriminate H.
  - injection H as ->. reflexivity.
  - simpl. now apply IH.
Qed.

Lemma update_at_twice (f g : Button -> Button) (l : list Button) (i : nat)
    (b : Button) :
  nth_error l i = Some b -> g (f b) = b ->
  update_at i g (update_at i f l) = l.
Proof.
  revert i. induction l as [|a l IH]; intros [|i] H Hb; try discriminate H.
  - injection H as ->. simpl. now rewrite Hb.
  - simpl. f_equal. now apply IH.
Qed.

(** X7. A layer button is a switch: clicking it twice gives back the
    buttons as they were, the first click showing or hiding the layer and
    the second undoing it. *)
Theorem layer_click_twice (index : nat) (buttons : list Button)
    (this : Button) :
  nth_error buttons index = Some this ->
  truthy (data_layer this) = true ->
  fst (click index (fst (click index buttons))) = buttons /\
  snd (click index buttons) =
    toggleLayer (text_of (data_layer this)) (negb (active this)) /\
  snd (click index (fst (click index buttons))) =
    toggleLayer (text_of (data_layer this)) (active this).
Proof.
  intros Hnth Hlayer.
  assert (Hfirst : click index buttons =
            (update_at index (set_active (negb (active this))) buttons,
             toggleLayer (text_of (data_layer this)) (negb (active this)))).
  { unfold click. now rewrite Hnth, Hlayer. }
  rewrite Hfirst. cbn [fst snd].
  pose proof (nth_error_update_at (set_active (negb (active this)))
                buttons index this Hnth) as Hnth'.
  unfold click. rewrite Hnth'. cbn [data_layer set_active active].
  rewrite Hlayer, negb_involutive. cbn [fst snd].
  split; [|split; reflexivity].
  apply (update_at_twice _ _ _ _ this Hnth).
  destruct this; reflexivity.
Qed.

Lemma layer_click_twice_witness :
  nth_error page_buttons 3 = Some (mkButton (Some "constraints") None false)
  /\ truthy (Some "constraints") = true /\
  fst (click 3 (fst (click 3 page_buttons))) = page_buttons /\
  snd (click 3 page_buttons) =
    [SetDisplay ".constraints" "block";
     ConsoleLog "Layer constraints: Enabled"].
Proof.
  split; [reflexivity|]. split; [reflexivity|].
  destruct (layer_click_twice 3 page_buttons
              (mkButton (Some "constraints") None false) eq_refl eq_refl)
    as (Hback & Hon & _).
  split; [exact Hback | exact Hon].
Defined.

Lemma update_at_attributes (f : Button -> Button) (i : nat)
    (l : list Button) :
  (forall b, data_layer (f b) = data_layer b /\
             data_tool (f b) = data_tool b) ->
  map (fun b => (data_layer b, data_tool b)) (update_at i f l) =
  map (fun b => (data_layer b, data_tool b)) l.
Proof.
  intros Hf. revert i. induction l as [|a l IH]; intros [|i]; simpl;
    try reflexivity.
  - destruct (Hf a) as [-> ->]. reflexivity.
  - now rewrite IH.
Qed.

Lemma active_tools_update_layer (f : Button -> Button) (i : nat)
    (l : list Button) (this : Button) :
  nth_error l i = Some this -> data_tool this = None ->
  data_tool (f this) = None ->
  active_tools (update_at i f l) = active_tools l.
Proof.
  revert i. induction l as [|a l IH]; intros [|i] H Hthis Hf;
    try discriminate H.
  - injection H as ->. unfold active_tools. simpl. now rewrite Hthis, Hf.
  - unfold active_tools in *. simpl.
    rewrite (IH i H Hthis Hf). reflexivity.
Qed.

Lemma active_tools_cleared (l : list Button) :
  active_tools (map (fun b => if has_attribute (data_tool b)
                              then set_active false b else b) l) = [].
Proof.
  induction l as [|a l IH]; [reflexivity|].
  unfold active_tools in *. simpl.
  destruct (data_tool a) eqn:Ha; simpl; rewrite ?Ha; simpl; exact IH.
Qed.

Lemma active_tools_update_one (f : Button -> Button) (i : nat)
    (l : list Button) :
  (List.length (active_tools (update_at i f l)) <=
   S (List.length (active_tools l)))%nat.
Proof.
  revert i. induction l as [|a l IH]; intros [|i]; simpl; try lia.
  - unfold active_tools. simpl.
    destruct (has_attribute (data_tool (f a)) && active (f a)),
      (has_attribute (data_tool a) && active a); simpl; lia.
  - unfold active_tools in *. simpl. specialize (IH i).
    destruct (has_attribute (data_tool a) && active a); simpl; lia.
Qed.

(** X8. Tools exclude one another: however the buttons are clicked, at
    most one tool button is shown active, and no click adds, removes or
    re-labels a button. *)
Theorem tools_exclusive (buttons : list Button) :
  reachable buttons ->
  (List.length (active_tools buttons) <= 1)%nat /\
  map (fun b => (data_layer b, data_tool b)) buttons =
    map (fun b => (data_layer b, data_tool b)) page_buttons.
Proof.
  induction 1 as [|index buttons _ [IHone IHattr]]; [split; simpl; lia + reflexivity|].
  unfold click.
  destruct (nth_error buttons index) as [this|] eqn:Hnth;
    [|split; assumption].
  assert (Hsorted : truthy (data_layer this) = true /\ data_tool this = None
                    \/ truthy (data_layer this) = false).
  { apply nth_error_In in Hnth.
    apply (in_map (fun b => (data_layer b, data_tool b))) in Hnth.
    rewrite IHattr in Hnth. simpl in Hnth.
    repeat (destruct Hnth as [Hnth | Hnth];
            [injection Hnth as <- <-; simpl; auto|]).
    contradiction. }
  destruct (truthy (data_layer this)) eqn:Hlayer; cbn [fst].
  - destruct Hsorted as [[_ Htool] | Hfalse]; [|discriminate Hfalse].
    split.
    + now rewrite (active_tools_update_layer _ _ _ this Hnth Htool).
    + rewrite update_at_attributes; [exact IHattr | now intros []].
  - destruct (truthy (data_tool this)); cbn [fst]; [|split; assumption].
    split.
    + eapply Nat.le_trans; [apply active_tools_update_one|].
      now rewrite active_tools_cleared.
    + rewrite update_at_attributes; [|now intros []].
      rewrite map_map, <- IHattr. apply map_ext.
      intros b. now destruct (has_attribute (data_tool b)).
Qed.

(** Measure, then shadow: only shadow is left active. *)
Lemma tools_exclusive_witness :
  reachable (fst (click 7 (fst (click 5 page_buttons)))) /\
  active_tools (fst (click 7 (fst (click 5 page_buttons)))) =
    [mkButton None (Some "shadow") true] /\
  (List.length
     (active_tools (fst (click 7 (fst (click 5 page_buttons))))) <= 1)%nat.
Proof.
  assert (Hr : reachable (fst (click 7 (fst (click 5 page_buttons)))))
    by (do 2 apply reachable_click; constructor).
  split; [exact Hr|]. split; [reflexivity|].
  exact (proj1 (tools_exclusive _ Hr)).
Defined.

End ToolbarFacts.

(* ===================================================================== *)
(** ** The landing page: submission, quick test and exports *)
(* ===================================================================== *)

Section SessionFacts.
Import JS Handler Landing Session.
Context {rt : Runtime} {co : Wire.Coercions}.
Variable browser_text : Error -> string.
Local Open Scope string_scope.




(** X10. [performAnalysis] sends exactly one request, whatever comes back:
    there is no retry.  Falling back to the test data leaves one line on
    the console, naming the failure, and nothing else; the user is shown no
    notice.  A 2xx JSON answer leaves no trace beyond the request. *)
Theorem performAnalysis_one_request (net : Network) (formData : FormData)
    (st : State) :
  requests (effects_of (performAnalysis net formData st)) =
    [Fetch "POST" "http://127.0.0.1:8000/analyze"] /\
  (effects_of (performAnalysis net formData st) =
     [Fetch "POST" "http://127.0.0.1:8000/analyze"] \/
   exists error,
     effects_of (performAnalysis net formData st) =
       [ Fetch "POST" "http://127.0.0.1:8000/analyze";
         ConsoleLogError "Using test data due to API error:" error ]) /\
  effects_of (performAnalysis net formData st) =
    Fetch "POST" "http://127.0.0.1:8000/analyze" ::
    match post_analyze net formData with
    | NetworkError =>
        [ConsoleLogError "Using test data due to API error:" FetchFailed]
    | Response status body =>
        if ((200 <=? status) && (status <=? 299))%Z
        then match body with
             | Some _ => []
             | None =>
                 [ConsoleLogError "Using test data due to API error:"
                    JsonSyntaxError]
             end
        else [ConsoleLogError "Using test data due to API error:"
                (ErrorMessage ("API Error: " ++ Z_toString status))]
    end.
Proof.
  unfold performAnalysis, try_catch, bind, fetch, perform, throw, ret, json,
    effects_of.
  destruct (post_analyze net formData) as [|status [data|]]; simpl.
  - split; [reflexivity|]. split; [right; now eexists | reflexivity].
  - rewrite two_hundred_ok.
    destruct ((200 <=? status) && (status <=? 299))%Z; simpl;
      (split; [reflexivity|]); (split; [|reflexivity]);
      [now left | right; now eexists].
  - rewrite two_hundred_ok.
    destruct ((200 <=? status) && (status <=? 299))%Z; simpl;
      (split; [reflexivity|]); (split; [|reflexivity]); right; now eexists.
Qed.

(** *** Displaying what came back *)





(** Offline, the submission ends on the two cards of the test data. *)
Example submit_offline :
  let net := {| get_health := NetworkError; get_root := NetworkError;
                post_analyze := fun _ => NetworkError |} in
  let r := handleAnalysisSubmit browser_text net sample_form
             (mkForm Wire.loaded false "Analyze Development Opportunities"
                "none") in
  page (state_of r) = Wire.shown (getTestData sample_form) /\
  List.length (Wire.propertiesGrid (page (state_of r))) = 2%nat /\
  analyzeBtn_disabled (state_of r) = false.
Proof. repeat split. Qed.

(** A 200 answer with the body [{}] ends in the error message, the results
    staying hidden and without cards. *)
Example submit_empty_object :
  let r := handleAnalysisSubmit browser_text Wire.answers_empty_object
             sample_form
             (mkForm Wire.loaded false "Analyze Development Opportunities"
                "none") in
  state_of r =
    mkForm (Wire.mkPage (Some (JObject [])) "" [] "none") false
      "Analyze Development Opportunities" "none" /\
  effects_of r =
    [ PreventDefault;
      OnPage (Fetch "POST" "http://127.0.0.1:8000/analyze");
      ErrorShown ("Analysis failed: " ++
                  browser_text (TypeError "total_properties_found")) ].
Proof. split; reflexivity. Qed.


(** X13. [exportCSV] is all or nothing and never touches the page state:
    either it returns, having done nothing or having handed over one file
    followed by the success toast, or it throws, and then there is no file,
    no toast, no effect at all. *)
Theorem exportCSV_all_or_nothing (st : State) :
  state_of (exportCSV st) = st /\
  (result_of (exportCSV st) = Return tt /\
   (effects_of (exportCSV st) = [] \/
    exists content,
      effects_of (exportCSV st) =
        [ DownloadFile content "sgiach-analysis.csv" "text/csv";
          ConsoleLog "SUCCESS: Analysis exported to CSV successfully!";
          Toast "success" "Analysis exported to CSV successfully!" ]) \/
   exists error,
     result_of (exportCSV st) = Throw error /\
     effects_of (exportCSV st) = []).
Proof.
  unfold exportCSV, bind, get, lift, downloadFile, showMessage, perform,
    ret, result_of, state_of, effects_of.
  destruct (currentAnalysisData st) as [data|]; simpl.
  - destruct (csv_rows (opportunities data) 0 csv_header) as [csv|error];
      simpl.
    + split; [reflexivity|]. left. split; [reflexivity|]. right.
      now exists csv.
    + split; [reflexivity|]. right. now exists error.
  - split; [reflexivity|]. left. split; [reflexivity|]. now left.
Qed.

(** X14. The connectivity check only touches the status indicator: the held
    analysis, the summary line, the cards and the visibility of the results
    are as before, and the status text no longer reads as connecting. *)
Theorem checkAPIConnection_keeps_results (net : Network) (st : State) :
  let st' := state_of (checkAPIConnection net st) in
  currentAnalysisData st' = currentAnalysisData st /\
  resultsSummary_textContent st' = resultsSummary_textContent st /\
  propertiesGrid st' = propertiesGrid st /\
  resultsContainer_display st' = resultsContainer_display st /\
  (apiStatus_className st' = "api-status connected" \/
   apiStatus_className st' = "api-status disconnected").
Proof.
  unfold checkAPIConnection, try_catch, bind, fetch, perform, throw, ret,
    json, state_of, set_className, set_indicator, set_text, set_status,
    showMessage, modify, get, message_or_Ready.
  destruct (get_health net) as [|hs [[|[msg|]]|]],
    (get_root net) as [|rs rb]; simpl;
    rewrite ?two_hundred_ok;
    repeat match goal with
           | |- context [((200 <=? ?z) && (?z <=? 299))%Z] =>
               destruct ((200 <=? z) && (z <=? 299))%Z; simpl
           end; repeat (split; [reflexivity|]); auto.
Qed.

End SessionFacts.

(* ===================================================================== *)
(** ** The validation request: when the user hears back *)
(* ===================================================================== *)

Section ValidationOutcomes.
Import JS Handler Mapping.
Local Open Scope string_scope.

(** X15. [requestProfessionalValidation] never throws and never changes
    the map object.  The user gets an alert exactly when an analysis is held
    and the response body carries [validation_request]; the HTTP status
    plays no part, so an error status with such a body still reports
    success.  With no analysis held, no request is sent at all. *)
Theorem validation_alert_iff (net : FetchResult ValidationResponse)
    (st : State) :
  let r := requestProfessionalValidation net st in
  result_of r = Return tt /\
  state_of r = st /\
  (alerts (effects_of r) <->
   (exists current, currentProperty st = Some current) /\
   ~ request_failed net) /\
  (currentProperty st = None ->
   effects_of r =
     [ConsoleError "Validation request failed:" (TypeError "property_data")])
  /\
  forall status status' body,
    net = Response status body ->
    effects_of r =
      effects_of (requestProfessionalValidation (Response status' body) st).
Proof.
  unfold requestProfessionalValidation, current_property_data, try_catch,
    bind, get, perform, throw, ret, json, alerts, result_of, state_of,
    effects_of.
  destruct (currentProperty st) as [current|]; simpl.
  - destruct net as [|status [[[request|]]|]]; simpl.
    + split; [reflexivity|]. split; [reflexivity|]. split; [|split].
      * split.
        -- intros (text & [H | [H | []]]); discriminate H.
        -- intros [_ Hn]. now destruct Hn.
      * discriminate.
      * discriminate.
    + split; [reflexivity|]. split; [reflexivity|]. split; [|split].
      * split.
        -- intros _. split; [now exists current | discriminate].
        -- intros _. eexists. right. left. reflexivity.
      * discriminate.
      * intros s s' b H. injection H as <- <-. reflexivity.
    + split; [reflexivity|]. split; [reflexivity|]. split; [|split].
      * split.
        -- intros (text & [H | [H | []]]); discriminate H.
        -- intros [_ Hn]. now destruct Hn.
      * discriminate.
      * intros s s' b H. injection H as <- <-. reflexivity.
    + split; [reflexivity|]. split; [reflexivity|]. split; [|split].
      * split.
        -- intros (text & [H | [H | []]]); discriminate H.
        -- intros [_ Hn]. now destruct Hn.
      * discriminate.
      * intros s s' b H. injection H as <- <-. reflexivity.
  - split; [reflexivity|]. split; [reflexivity|]. split; [|split].
    + split.
      * intros (text & [H | []]); discriminate H.
      * intros [[current H] _]. discriminate H.
    + reflexivity.
    + intros s s' b H. reflexivity.
Qed.

(** A server error whose body still names a request is reported as a
    success. *)
Example validation_error_status_alerts :
  effects_of
    (requestProfessionalValidation
       (Response 500
          (Some (mkValidationResponse
                   (Some (mkValidationRequest None)))))
       (mkState (Some sample_property))) =
  [ Fetch "POST" "/professional/validation-request" "comprehensive"
      (property_data sample_property);
    Alert "Professional validation requested! Request ID: undefined" ].
Proof. reflexivity. Qed.

End ValidationOutcomes.

(* ===================================================================== *)
(** ** The map page: markers pile up *)
(* ===================================================================== *)

Section MapViewFacts.
Import JS Handler Mapping MapView.
Context {rt : Runtime}.
Variable inherited_text : string -> string.
Local Open Scope string_scope.




(** Adding the sample water connection twice leaves two water markers. *)
Example markers_twice :
  let add := addUtilityMarkers inherited_text sample_utilities in
  map glyph (utilityMarkers (state_of (add (state_of (add constructed)))))
  = ["💧"; "💧"].
Proof. reflexivity. Qed.

End MapViewFacts.
